(** * Sport tracker: a shallow embedding of [tracker.py]

    The module computes distance, mean speed and spent calories of four
    kinds of workouts and renders them in a one-line report.

    The embedding keeps Python's run-time view of the data:
    - a sensor value is an [int], a [float] or a [str] ([value]); ints are
      unbounded ([Z]), floats are IEEE 754 binary64 (Rocq's primitive
      [float], the same format and rounding as the C [double] behind a
      Python float);
    - an operation either returns or raises ([result]); the exceptions are
      the built-in ones the interpreter raises for the operators used;
    - method calls on [self] are resolved by the class of the instance. *)

From Stdlib Require Import ZArith QArith Qabs Lia Bool List String Ascii.
From Stdlib Require Import Floats DecimalString.
From Stdlib Require Uint63.
Import ListNotations.

Set Warnings "-inexact-float".
Local Open Scope string_scope.
Local Open Scope Z_scope.

(** ** Exceptions and results *)

Inductive exn : Type :=
| ValueError (msg : string)
| TypeError
| ZeroDivisionError
| OverflowError
| NotImplementedError.

(** [type(e).__name__] *)
Definition exn_name (e : exn) : string :=
  match e with
  | ValueError _ => "ValueError"
  | TypeError => "TypeError"
  | ZeroDivisionError => "ZeroDivisionError"
  | OverflowError => "OverflowError"
  | NotImplementedError => "NotImplementedError"
  end.

Inductive result (A : Type) : Type :=
| Ok (a : A)
| Raise (e : exn).
Arguments Ok {A} a.
Arguments Raise {A} e.

Definition bind {A B : Type} (c : result A) (k : A -> result B) : result B :=
  match c with
  | Ok a => k a
  | Raise e => Raise e
  end.

Notation "x <- c ;; k" := (bind c (fun x => k))
  (at level 61, c at next level, right associativity).

Definition returns {A : Type} (c : result A) : bool :=
  match c with Ok _ => true | Raise _ => false end.

(** ** Values *)

Inductive value : Type :=
| VInt (z : Z)
| VFloat (f : float)
| VStr (s : string).

(** ** Floats (Objects/floatobject.c, Objects/longobject.c) *)

Module PyFloat.

(** The float nearest to [m * 2^e] (ties to even); [szero] signs a zero. *)
Definition of_scaled (m e : Z) (szero : bool) : float :=
  SF2Prim (binary_normalize prec emax m e szero).

(** A finite float as [(m, e)] with value [m * 2^e]. *)
Definition finite_parts (f : float) : option (Z * Z) :=
  match Prim2SF f with
  | S754_zero _ => Some (0, 0)
  | S754_finite s m e => Some (if s then Zneg m else Zpos m, e)
  | _ => None
  end.

(** The exact value of a finite float. *)
Definition to_Q (f : float) : option Q :=
  match finite_parts f with
  | Some (m, e) => Some (inject_Z m * Qpower 2 e)%Q
  | None => None
  end.

(** [PyLong_AsDouble]: round to nearest even, [OverflowError] when the
    rounded value is out of range. *)
Definition of_int (z : Z) : result float :=
  match binary_normalize prec emax z 0 false with
  | S754_infinity _ => Raise OverflowError
  | sf => Ok (SF2Prim sf)
  end.

(** [long_true_divide]: the correctly rounded quotient of two ints. *)
Definition int_true_divide (a b : Z) : result float :=
  let sf z :=
    match z with
    | Z0 => S754_zero false
    | Zpos p => S754_finite false p 0
    | Zneg p => S754_finite true p 0
    end in
  if b =? 0 then Raise ZeroDivisionError
  else if a =? 0 then Ok (if b <? 0 then neg_zero else zero)
  else match SFdiv prec emax (sf a) (sf b) with
       | S754_infinity _ => Raise OverflowError
       | q => Ok (SF2Prim q)
       end.

(** C's [fmod]: exact, with the sign of [x]. *)
Definition fmod (x y : float) : float :=
  if is_nan x || is_nan y || is_infinity x || is_zero y then nan
  else if is_infinity y then x
  else match finite_parts x, finite_parts y with
       | Some (mx, ex), Some (my, ey) =>
           let e := Z.min ex ey in
           of_scaled (Z.rem (mx * 2 ^ (ex - e)) (my * 2 ^ (ey - e))) e (get_sign x)
       | _, _ => nan
       end.

(** C's [floor]. *)
Definition floor (x : float) : float :=
  match finite_parts x with
  | Some (m, e) => if 0 <=? e then x else of_scaled (m / 2 ^ (- e)) 0 (get_sign x)
  | None => x
  end.

(** [copysign(0.0, x)] *)
Definition copysign_zero (x : float) : float :=
  if get_sign x then neg_zero else zero.

(** [_float_div_mod]: the pair (floordiv, mod), for [wx] not zero. *)
Definition div_mod (vx wx : float) : float * float :=
  let md := fmod vx wx in
  let div := ((vx - md) / wx)%float in
  let '(md, div) :=
    if negb (md =? 0)%float then
      if negb (Bool.eqb (wx <? 0)%float (md <? 0)%float)
      then ((md + wx)%float, (div - 1)%float)
      else (md, div)
    else (copysign_zero wx, div) in
  let floordiv :=
    if negb (div =? 0)%float then
      let fl := floor div in
      if (0.5 <? div - fl)%float then (fl + 1)%float else fl
    else copysign_zero (vx / wx)%float in
  (floordiv, md).

(** [float_div] *)
Definition true_divide (a b : float) : result float :=
  if (b =? 0)%float then Raise ZeroDivisionError else Ok (a / b)%float.

(** [float_floor_div] *)
Definition floor_divide (a b : float) : result float :=
  if (b =? 0)%float then Raise ZeroDivisionError else Ok (fst (div_mod a b)).

(** [float_pow] at the exponent [2.0].  The library call [pow(x, 2.0)] is
    taken as the correctly rounded square; an overflow of it is reported
    as [OverflowError], an underflow is not an error. *)
Definition pow2 (iv : float) : result float :=
  if is_nan iv then Ok iv
  else if is_infinity iv then Ok (abs iv)
  else if (iv =? 0)%float then Ok zero
  else
    let ix := (abs iv * abs iv)%float in
    if is_infinity ix then Raise OverflowError else Ok ix.

(** *** [format(x, '.3f')] *)

(** [n / d] rounded to the nearest integer, ties to even ([0 <= n], [0 < d]). *)
Definition round_half_even (n d : Z) : Z :=
  let q := n / d in
  let r := n mod d in
  if 2 * r <? d then q
  else if d <? 2 * r then q + 1
  else if Z.even q then q else q + 1.

(** [1000 * m * 2^e] rounded to an integer. *)
Definition thousandths (m e : Z) : Z :=
  if 0 <=? e then 1000 * m * 2 ^ e else round_half_even (1000 * m) (2 ^ (- e)).

Definition decimal (n : Z) : string := NilZero.string_of_uint (N.to_uint (Z.to_N n)).

Definition digit (n : Z) : ascii := ascii_of_N (48 + Z.to_N n).

Definition digits3 (n : Z) : string :=
  String (digit (n / 100 mod 10))
    (String (digit (n / 10 mod 10)) (String (digit (n mod 10)) "")).

Definition fixed3 (neg : bool) (n : Z) : string :=
  (if neg then "-" else "") ++ decimal (n / 1000) ++ "." ++ digits3 (n mod 1000).

Definition format_3f (f : float) : string :=
  match Prim2SF f with
  | S754_nan => "nan"
  | S754_infinity s => if s then "-inf" else "inf"
  | S754_zero s => fixed3 s 0
  | S754_finite s m e => fixed3 s (thousandths (Zpos m) e)
  end.

End PyFloat.

(** ** Operators on values

    The binary operators of the interpreter on ints, floats and strs.  An
    int operand meeting a float is converted first ([PyFloat.of_int]); a
    str takes part only in concatenation and repetition. *)

(** The number of characters of a str: strings hold the UTF-8 bytes of a
    text, of which the bytes [10xxxxxx] continue a character. *)
Fixpoint str_len (s : string) : Z :=
  match s with
  | EmptyString => 0
  | String c rest =>
      (if (128 <=? Z.of_N (N_of_ascii c)) && (Z.of_N (N_of_ascii c) <? 192)
       then 0 else 1) + str_len rest
  end.

(** The largest index of a sequence ([PY_SSIZE_T_MAX] on a 64-bit build). *)
Definition PY_SSIZE_T_MAX : Z := 2 ^ 63 - 1.

(** [s * n]: [OverflowError] for a count that is no index and for a
    result longer than a sequence may be; the memory of the machine is
    not modelled (a result that long but too large for it is a
    [MemoryError] there). *)
Definition str_repeat (s : string) (n : Z) : result string :=
  if (n <? - PY_SSIZE_T_MAX - 1) || (PY_SSIZE_T_MAX <? n) then Raise OverflowError
  else match n with
       | Zpos p =>
           if PY_SSIZE_T_MAX / n <? str_len s then Raise OverflowError
           else Ok (Pos.iter (append s) "" p)
       | _ => Ok ""
       end.

Definition to_float (v : value) : result float :=
  match v with
  | VInt z => PyFloat.of_int z
  | VFloat f => Ok f
  | VStr _ => Raise TypeError
  end.

(** [a + b] *)
Definition py_add (a b : value) : result value :=
  match a, b with
  | VInt x, VInt y => Ok (VInt (x + y))
  | VStr s, VStr t => Ok (VStr (s ++ t))
  | VStr _, _ | _, VStr _ => Raise TypeError
  | _, _ => x <- to_float a;; y <- to_float b;; Ok (VFloat (x + y))
  end.

(** [a - b] *)
Definition py_sub (a b : value) : result value :=
  match a, b with
  | VInt x, VInt y => Ok (VInt (x - y))
  | VStr _, _ | _, VStr _ => Raise TypeError
  | _, _ => x <- to_float a;; y <- to_float b;; Ok (VFloat (x - y))
  end.

(** [a * b] *)
Definition py_mul (a b : value) : result value :=
  match a, b with
  | VInt x, VInt y => Ok (VInt (x * y))
  | VStr s, VInt n | VInt n, VStr s => r <- str_repeat s n;; Ok (VStr r)
  | VStr _, _ | _, VStr _ => Raise TypeError
  | _, _ => x <- to_float a;; y <- to_float b;; Ok (VFloat (x * y))
  end.

(** [a / b] *)
Definition py_truediv (a b : value) : result value :=
  match a, b with
  | VInt x, VInt y => q <- PyFloat.int_true_divide x y;; Ok (VFloat q)
  | VStr _, _ | _, VStr _ => Raise TypeError
  | _, _ =>
      x <- to_float a;; y <- to_float b;;
      q <- PyFloat.true_divide x y;; Ok (VFloat q)
  end.

(** [a // b] *)
Definition py_floordiv (a b : value) : result value :=
  match a, b with
  | VInt x, VInt y =>
      if y =? 0 then Raise ZeroDivisionError else Ok (VInt (x / y))
  | VStr _, _ | _, VStr _ => Raise TypeError
  | _, _ =>
      x <- to_float a;; y <- to_float b;;
      q <- PyFloat.floor_divide x y;; Ok (VFloat q)
  end.

(** [a ** 2] *)
Definition py_pow2 (a : value) : result value :=
  match a with
  | VInt x => Ok (VInt (x * x))
  | VFloat f => p <- PyFloat.pow2 f;; Ok (VFloat p)
  | VStr _ => Raise TypeError
  end.

(** [a == s] for a str [s] *)
Definition py_eq_str (a : value) (s : string) : bool :=
  match a with
  | VStr t => String.eqb t s
  | _ => false
  end.

(** [format(a, '.3f')]: an int is converted to a float first, a str has
    no such format code. *)
Definition py_format_3f (a : value) : result string :=
  match a with
  | VInt z => f <- PyFloat.of_int z;; Ok (PyFloat.format_3f f)
  | VFloat f => Ok (PyFloat.format_3f f)
  | VStr _ => Raise (ValueError "Unknown format code 'f' for object of type 'str'")
  end.

(** ** class InfoMessage *)

Module InfoMessage.

Record t : Type := new {
  training_type : string;
  duration : value;
  distance : value;
  speed : value;
  calories : value
}.

(** The template: its literal text around the five replacement fields. *)
Definition message (training_type duration distance speed calories : string)
  : string :=
  "Тип тренировки: " ++ training_type ++ "; "
  ++ "Длительность: " ++ duration ++ " ч.; "
  ++ "Дистанция: " ++ distance ++ " км; "
  ++ "Ср. скорость: " ++ speed ++ " км/ч; "
  ++ "Потрачено ккал: " ++ calories ++ ".".

(** [self.message.format( **asdict(self))]: the fields are formatted from
    left to right, [training_type] as it is and the four numbers with
    [.3f]. *)
Definition get_message (self : t) : result string :=
  duration <- py_format_3f (duration self);;
  distance <- py_format_3f (distance self);;
  speed <- py_format_3f (speed self);;
  calories <- py_format_3f (calories self);;
  Ok (message (training_type self) duration distance speed calories).

End InfoMessage.

(** ** class Training and its subclasses *)

(** An instance: its class and the attributes its [__init__] stores. *)
Inductive training : Type :=
| Training (action duration weight : value)
| Cycling (action duration weight area_type : value)
| Running (action duration weight : value)
| SportsWalking (action duration weight height : value)
| Swimming (action duration weight length_pool count_pool : value).

(** [self.__class__.__name__] *)
Definition class_name (self : training) : string :=
  match self with
  | Training _ _ _ => "Training"
  | Cycling _ _ _ _ => "Cycling"
  | Running _ _ _ => "Running"
  | SportsWalking _ _ _ _ => "SportsWalking"
  | Swimming _ _ _ _ _ => "Swimming"
  end.

Definition action (self : training) : value :=
  match self with
  | Training a _ _ | Cycling a _ _ _ | Running a _ _
  | SportsWalking a _ _ _ | Swimming a _ _ _ _ => a
  end.

Definition duration (self : training) : value :=
  match self with
  | Training _ d _ | Cycling _ d _ _ | Running _ d _
  | SportsWalking _ d _ _ | Swimming _ d _ _ _ => d
  end.

Definition weight (self : training) : value :=
  match self with
  | Training _ _ w | Cycling _ _ w _ | Running _ _ w
  | SportsWalking _ _ w _ | Swimming _ _ w _ _ => w
  end.

(** Class attributes, looked up through the class of [self]. *)
Definition M_IN_KM : value := VInt 1000.
Definition MINUTES_IN_HOUR : value := VInt 60.

Definition LEN_STEP (self : training) : value :=
  match self with
  | Cycling _ _ _ _ => VFloat 1.40
  | Swimming _ _ _ _ _ => VFloat 1.38
  | _ => VFloat 0.65
  end.

Definition COEFF_FOR_TRAIL : value := VInt 6.
Definition COEFF_FOR_CLASSIC : value := VFloat 2.5.
Definition COEFF3 : value := VInt 18.
Definition COEFF4 : value := VInt 20.
Definition COEFF_CALORIES_1 : value := VFloat 0.035.
Definition COEFF_CALORIES_2 : value := VFloat 0.029.
Definition COEFF1 : value := VFloat 1.1.
Definition COEFF2 : value := VInt 2.

(** *** get_distance *)

Definition Training_get_distance (self : training) : result value :=
  steps <- py_mul (action self) (LEN_STEP self);;
  py_truediv steps M_IN_KM.

Definition Cycling_get_distance (self : training) : result value :=
  steps <- py_mul (action self) (LEN_STEP self);;
  py_truediv steps M_IN_KM.

Definition Swimming_get_distance (self : training) : result value :=
  strokes <- py_mul (action self) (LEN_STEP self);;
  py_truediv strokes M_IN_KM.

Definition get_distance (self : training) : result value :=
  match self with
  | Cycling _ _ _ _ => Cycling_get_distance self
  | Swimming _ _ _ _ _ => Swimming_get_distance self
  | _ => Training_get_distance self
  end.

(** *** get_mean_speed *)

Definition Training_get_mean_speed (self : training) : result value :=
  distance <- get_distance self;;
  py_truediv distance (duration self).

Definition Swimming_get_mean_speed (self : training)
    (lenght_pool count_pool : value) : result value :=
  pool <- py_mul lenght_pool count_pool;;
  km <- py_truediv pool M_IN_KM;;
  py_truediv km (duration self).

Definition get_mean_speed (self : training) : result value :=
  match self with
  | Swimming _ _ _ lenght_pool count_pool =>
      Swimming_get_mean_speed self lenght_pool count_pool
  | _ => Training_get_mean_speed self
  end.

(** *** get_spent_calories *)

Definition Training_get_spent_calories (self : training) : result value :=
  Raise NotImplementedError.

Definition Cycling_get_spent_calories (self : training) (area_type : value)
  : result value :=
  colories_per_minute <-
    (if py_eq_str area_type "trail" then
       speed <- get_mean_speed self;;
       c <- py_mul COEFF_FOR_TRAIL speed;;
       py_mul c (weight self)
     else
       speed <- get_mean_speed self;;
       c <- py_mul COEFF_FOR_CLASSIC speed;;
       py_mul c (weight self));;
  training_mins <- py_mul (duration self) MINUTES_IN_HOUR;;
  per_km <- py_truediv colories_per_minute M_IN_KM;;
  py_mul per_km training_mins.

Definition Running_get_spent_calories (self : training) : result value :=
  speed <- get_mean_speed self;;
  c <- py_mul COEFF3 speed;;
  c <- py_sub c COEFF4;;
  colories_per_minute <- py_mul c (weight self);;
  training_mins <- py_mul (duration self) MINUTES_IN_HOUR;;
  per_km <- py_truediv colories_per_minute M_IN_KM;;
  py_mul per_km training_mins.

Definition SportsWalking_get_spent_calories (self : training) (height : value)
  : result value :=
  base <- py_mul COEFF_CALORIES_1 (weight self);;
  speed <- get_mean_speed self;;
  square <- py_pow2 speed;;
  ratio <- py_floordiv square height;;
  r <- py_mul ratio COEFF_CALORIES_2;;
  r <- py_mul r (weight self);;
  per_minute <- py_add base r;;
  training_mins <- py_mul (duration self) MINUTES_IN_HOUR;;
  py_mul per_minute training_mins.

Definition Swimming_get_spent_calories (self : training) : result value :=
  speed <- get_mean_speed self;;
  s <- py_add speed COEFF1;;
  s <- py_mul s COEFF2;;
  py_mul s (weight self).

Definition get_spent_calories (self : training) : result value :=
  match self with
  | Training _ _ _ => Training_get_spent_calories self
  | Cycling _ _ _ area_type => Cycling_get_spent_calories self area_type
  | Running _ _ _ => Running_get_spent_calories self
  | SportsWalking _ _ _ height => SportsWalking_get_spent_calories self height
  | Swimming _ _ _ _ _ => Swimming_get_spent_calories self
  end.

(** *** show_training_info *)

Definition show_training_info (self : training) : result InfoMessage.t :=
  distance <- get_distance self;;
  speed <- get_mean_speed self;;
  calories <- get_spent_calories self;;
  Ok (InfoMessage.new (class_name self) (duration self) distance speed calories).

(** ** read_package *)

Definition new_Swimming (data : list value) : result training :=
  match data with
  | [action; duration; weight; length_pool; count_pool] =>
      Ok (Swimming action duration weight length_pool count_pool)
  | _ => Raise TypeError
  end.

Definition new_Running (data : list value) : result training :=
  match data with
  | [action; duration; weight] => Ok (Running action duration weight)
  | _ => Raise TypeError
  end.

Definition new_SportsWalking (data : list value) : result training :=
  match data with
  | [action; duration; weight; height] =>
      Ok (SportsWalking action duration weight height)
  | _ => Raise TypeError
  end.

Definition new_Cycling (data : list value) : result training :=
  match data with
  | [action; duration; weight; area_type] =>
      Ok (Cycling action duration weight area_type)
  | _ => Raise TypeError
  end.

(** A dict with str keys, as the list of its items. *)
Fixpoint dict_get {A : Type} (d : list (string * A)) (key : string) : option A :=
  match d with
  | [] => None
  | (k, v) :: rest => if String.eqb k key then Some v else dict_get rest key
  end.

Definition training_type : list (string * (list value -> result training)) :=
  [ ("SWM", new_Swimming);
    ("RUN", new_Running);
    ("WLK", new_SportsWalking);
    ("CYC", new_Cycling) ].

Definition read_package (workout_type : string) (data : list value)
  : result training :=
  match dict_get training_type workout_type with
  | None => Raise (ValueError ("Некорректный тип тренировки " ++ workout_type))
  | Some cls => cls data
  end.

(** ** main and the driver *)

(** Standard output, as the lines printed so far. *)
Definition stdout : Type := list string.

Definition print (line : string) (out : stdout) : stdout := (out ++ [line])%list.

Definition main (training : training) (out : stdout) : result unit * stdout :=
  match show_training_info training with
  | Raise e => (Raise e, out)
  | Ok info =>
      match InfoMessage.get_message info with
      | Raise e => (Raise e, out)
      | Ok line => (Ok tt, print line out)
      end
  end.

Definition packages : list (string * list value) :=
  [ ("SWM", [VInt 720; VInt 1; VInt 80; VInt 25; VInt 40]);
    ("RUN", [VInt 15000; VInt 1; VInt 75]);
    ("WLK", [VInt 9000; VInt 1; VInt 75; VInt 180]);
    ("CYC", [VInt 10000; VInt 1; VInt 75; VStr "trial"]) ].

Fixpoint run (packages : list (string * list value)) (out : stdout)
  : result unit * stdout :=
  match packages with
  | [] => (Ok tt, out)
  | (workout_type, data) :: rest =>
      match read_package workout_type data with
      | Raise e => (Raise e, out)
      | Ok training =>
          match main training out with
          | (Raise e, out) => (Raise e, out)
          | (Ok _, out) => run rest out
          end
      end
  end.

(** * Vocabulary of the properties *)

(** [v] is within half a thousandth of [q]: it reads [q] at three decimals. *)
Definition approx (v : value) (q : Q) : bool :=
  match v with
  | VInt z => Qle_bool (Qabs (inject_Z z - q)) 0.0005
  | VFloat f =>
      match PyFloat.to_Q f with
      | Some x => Qle_bool (Qabs (x - q)) 0.0005
      | None => false
      end
  | VStr _ => false
  end.

(** The sample packages of the driver, as instances. *)
Definition swimming_A : training :=
  Swimming (VInt 720) (VInt 1) (VInt 80) (VInt 25) (VInt 40).
Definition running_B : training :=
  Running (VInt 15000) (VInt 1) (VInt 75).
Definition walking_C : training :=
  SportsWalking (VInt 9000) (VInt 1) (VInt 75) (VInt 180).
Definition cycling_D : training :=
  Cycling (VInt 10000) (VInt 1) (VInt 75) (VStr "trial").

(** The summary of the first of them. *)
Definition info_A : InfoMessage.t :=
  InfoMessage.new "Swimming" (VInt 1) (VFloat (720 * 1.38 / 1000))
    (VFloat 1) (VFloat 336).



(** The classes that inherit [Training.get_mean_speed]. *)
Definition on_foot_or_bike (self : training) : bool :=
  match self with
  | Running _ _ _ | SportsWalking _ _ _ _ | Cycling _ _ _ _ => true
  | _ => false
  end.

(** The keys of [training_type]. *)
Definition workout_types : list string := map fst training_type.

(** The number of arguments each class takes, after [self]. *)
Definition arities : list (string * nat) :=
  [ ("SWM", 5%nat); ("RUN", 3%nat); ("WLK", 4%nat); ("CYC", 4%nat) ].

(** [n] is the integer nearest to [1000 * m * 2^e], the even one of the
    two when that number lies halfway between them. *)
Definition nearest_thousandth (m e n : Z) : Prop :=
  let gap :=
    Z.abs (2 * (1000 * m * 2 ^ Z.max e 0) - 2 * n * 2 ^ Z.max (- e) 0) in
  gap <= 2 ^ Z.max (- e) 0
  /\ (gap = 2 ^ Z.max (- e) 0 -> Z.even n = true).


Definition positive (x : float) : bool := (0 <? x)%float.


(** ** Vocabulary of the further properties *)

(** The shapes of a float that is not below zero: a zero, a positive
    number, an infinity of positive sign, or not a number. *)
Definition sf_not_negative (x : spec_float) : bool :=
  match x with
  | S754_infinity true | S754_finite true _ _ => false
  | _ => true
  end.

(** The step length of the class of an instance, in metres. *)
Definition step_length (self : training) : float :=
  match self with
  | Cycling _ _ _ _ => 1.40
  | Swimming _ _ _ _ _ => 1.38
  | _ => 0.65
  end.

(** The attributes of an instance, in the order of its constructor. *)
Definition fields (self : training) : list value :=
  match self with
  | Training a d w => [a; d; w]
  | Cycling a d w t => [a; d; w; t]
  | Running a d w => [a; d; w]
  | SportsWalking a d w h => [a; d; w; h]
  | Swimming a d w l c => [a; d; w; l; c]
  end.

(** The key of [training_type] that holds the class of an instance. *)
Definition code_of (self : training) : option string :=
  match self with
  | Training _ _ _ => None
  | Cycling _ _ _ _ => Some "CYC"
  | Running _ _ _ => Some "RUN"
  | SportsWalking _ _ _ _ => Some "WLK"
  | Swimming _ _ _ _ _ => Some "SWM"
  end.

Definition is_Swimming (self : training) : bool :=
  match self with
  | Swimming _ _ _ _ _ => true
  | _ => false
  end.

Definition is_number (v : value) : bool :=
  match v with
  | VStr _ => false
  | _ => true
  end.

(** * Properties *)

(** ** Reading the results *)

Example packages_read :
  map (fun p => read_package (fst p) (snd p)) packages
  = [Ok swimming_A; Ok running_B; Ok walking_C; Ok cycling_D].
Proof. reflexivity. Qed.

(** The driver prints the four reports. *)
Example run_packages :
  run packages []
  = (Ok tt,
     [ "Тип тренировки: Swimming; Длительность: 1.000 ч.; Дистанция: 0.994 км; Ср. скорость: 1.000 км/ч; Потрачено ккал: 336.000.";
       "Тип тренировки: Running; Длительность: 1.000 ч.; Дистанция: 9.750 км; Ср. скорость: 9.750 км/ч; Потрачено ккал: 699.750.";
       "Тип тренировки: SportsWalking; Длительность: 1.000 ч.; Дистанция: 5.850 км; Ср. скорость: 5.850 км/ч; Потрачено ккал: 157.500.";
       "Тип тренировки: Cycling; Длительность: 1.000 ч.; Дистанция: 14.000 км; Ср. скорость: 14.000 км/ч; Потрачено ккал: 157.500." ]).
Proof. vm_compute. reflexivity. Qed.

(** Floor division of floats on a few operands. *)
Example floor_divide_samples :
  map (fun p => PyFloat.floor_divide (fst p) (snd p))
      [ (7.5, 2); (-7.5, 2); (7.5, -2); (34.2225, 180); (1, 0.1); (6, 0) ]%float
  = [ Ok 3; Ok (-4); Ok (-4); Ok 0; Ok 9; Raise ZeroDivisionError ]%float.
Proof. vm_compute. reflexivity. Qed.

(** ** Facts about floats *)

Lemma float_pos_nonzero (x : float) :
  (0 <? x)%float = true -> (x =? 0)%float = false.
Proof.
  rewrite ltb_spec, eqb_spec.
  change (Prim2SF 0%float) with (S754_zero false).
  destruct (Prim2SF x) as [s | s | | s m e]; simpl; try discriminate; try reflexivity.
  all: destruct s; simpl; try discriminate; reflexivity.
Qed.

Lemma true_divide_pos (a b : float) :
  (0 <? b)%float = true -> PyFloat.true_divide a b = Ok (a / b)%float.
Proof.
  intros Hb. unfold PyFloat.true_divide. now rewrite (float_pos_nonzero _ Hb).
Qed.




(** ** Scenario B: running *)

(** C1, as the code has it: for the Running reading built from
    action 15000, duration 1 and weight 75 the distance and the mean speed
    are 9.75 and the calories are the value of the Running formula
    [(18 * speed - 20) * weight / 1000 * (duration * 60)], which is 699.75
    (699.750 at three decimals). *)
Theorem running_scenario :
  get_distance running_B = Ok (VFloat 9.75)
  /\ get_mean_speed running_B = Ok (VFloat 9.75)
  /\ get_spent_calories running_B
     = Ok (VFloat ((18 * 9.75 - 20) * 75 / 1000 * (1 * 60)))
  /\ approx (VFloat 9.75) 9.750 = true
  /\ approx (VFloat ((18 * 9.75 - 20) * 75 / 1000 * (1 * 60))) 699.750 = true.
Proof. repeat split; vm_compute; reflexivity. Qed.

(** C1 as stated fails: the calories of that reading are not 129.150 at
    three decimals. *)
Lemma running_scenario_not_129_150 :
  ~ (exists d s c,
        get_distance running_B = Ok d /\ approx d 9.750 = true
        /\ get_mean_speed running_B = Ok s /\ approx s 9.750 = true
        /\ get_spent_calories running_B = Ok c /\ approx c 129.150 = true).
Proof.
  intros (d & s & c & _ & _ & _ & _ & Hc & Hap).
  assert (E : get_spent_calories running_B = Ok (VFloat 699.75))
    by (vm_compute; reflexivity).
  rewrite E in Hc. injection Hc as <-.
  vm_compute in Hap. discriminate.
Qed.

(** ** Scenario A: swimming *)

(** C5: for the Swimming reading built from action 720, duration 1,
    weight 80, pool length 25 and 40 laps the distance reads 0.994, the mean
    speed 1.000 and the calories 336.000, the calories being
    [(speed + 1.1) * 2 * weight]. *)
Theorem swimming_scenario :
  exists d s c,
    get_distance swimming_A = Ok d /\ approx d 0.994 = true
    /\ get_mean_speed swimming_A = Ok (VFloat s) /\ approx (VFloat s) 1.000 = true
    /\ get_spent_calories swimming_A = Ok c /\ approx c 336.000 = true
    /\ c = VFloat ((s + 1.1) * 2 * 80).
Proof.
  exists (VFloat (720 * 1.38 / 1000)), 1%float, (VFloat 336).
  repeat split; vm_compute; reflexivity.
Qed.

(** ** Sports walking: the floor division *)



(** ** Cycling: the trail coefficient *)

(** C3: the calories of a Cycling reading are
    [(rate / 1000) * (duration * 60)], the rate per minute being
    [6 * speed * weight] when [area_type] is the string "trail" and
    [2.5 * speed * weight] for any other value, "trial" among them. *)
Theorem cycling_calories_by_area :
  forall (a area : value) (d w s : float),
    get_mean_speed (Cycling a (VFloat d) (VFloat w) area) = Ok (VFloat s) ->
    let calories := get_spent_calories (Cycling a (VFloat d) (VFloat w) area) in
    (area = VStr "trail" ->
     calories = Ok (VFloat (6 * s * w / 1000 * (d * 60))))
    /\ (area <> VStr "trail" ->
        calories = Ok (VFloat (2.5 * s * w / 1000 * (d * 60))))
    /\ (area = VStr "trial" ->
        calories = Ok (VFloat (2.5 * s * w / 1000 * (d * 60))))
    /\ get_spent_calories cycling_D = Ok (VFloat (2.5 * 14 * 75 / 1000 * (1 * 60))).
Proof.
  intros a area d w s Hs calories.
  assert (Hother : area <> VStr "trail" ->
                   calories = Ok (VFloat (2.5 * s * w / 1000 * (d * 60)))).
  { intros Hne. unfold calories, get_spent_calories, Cycling_get_spent_calories.
    assert (Hno : py_eq_str area "trail" = false).
    { destruct area as [z | f | t]; try reflexivity. simpl.
      destruct (String.eqb_spec t "trail") as [-> | ]; [ now elim Hne | reflexivity ]. }
    rewrite Hno, Hs. reflexivity. }
  split; [ | split; [ | split ] ].
  - intros ->. unfold calories, get_spent_calories, Cycling_get_spent_calories.
    change (py_eq_str (VStr "trail") "trail") with true. cbv iota.
    rewrite Hs. reflexivity.
  - exact Hother.
  - intros ->. apply Hother. discriminate.
  - vm_compute. reflexivity.
Qed.

Lemma cycling_calories_by_area_witness :
  get_spent_calories (Cycling (VInt 10000) (VFloat 1) (VFloat 75) (VStr "trial"))
  = Ok (VFloat (2.5 * 14 * 75 / 1000 * (1 * 60)))
  /\ get_spent_calories (Cycling (VInt 10000) (VFloat 1) (VFloat 75) (VStr "trail"))
     = Ok (VFloat (6 * 14 * 75 / 1000 * (1 * 60))).
Proof.
  split.
  - apply (cycling_calories_by_area (VInt 10000) (VStr "trial") 1 75 14);
      vm_compute; reflexivity.
  - apply (cycling_calories_by_area (VInt 10000) (VStr "trail") 1 75 14);
      vm_compute; reflexivity.
Defined.

(** ** Mean speed *)

(** C4: for a Running, SportsWalking or Cycling reading with a positive
    duration the mean speed is exactly the distance divided by the
    duration; Swimming computes it as
    [length_pool * count_pool / 1000 / duration] instead. *)
Theorem mean_speed_is_distance_over_duration :
  (forall (self : training) (dist d : float),
      on_foot_or_bike self = true ->
      to_float (duration self) = Ok d ->
      (0 <? d)%float = true ->
      get_distance self = Ok (VFloat dist) ->
      get_mean_speed self = Ok (VFloat (dist / d)))
  /\ (forall (a w : value) (d length_pool : float) (count_pool : Z) (laps : float),
         (0 <? d)%float = true ->
         PyFloat.of_int count_pool = Ok laps ->
         get_mean_speed (Swimming a (VFloat d) w (VFloat length_pool) (VInt count_pool))
         = Ok (VFloat (length_pool * laps / 1000 / d))).
Proof.
  split.
  - intros self dist d Hcls Hd Hpos Hdist.
    assert (Hspeed : get_mean_speed self = Training_get_mean_speed self)
      by (destruct self; try discriminate; reflexivity).
    rewrite Hspeed. unfold Training_get_mean_speed. rewrite Hdist.
    cbn [bind]. unfold py_truediv.
    destruct (duration self) as [z | f | t]; cbn [to_float bind] in *.
    + rewrite Hd. cbn [bind]. now rewrite (true_divide_pos _ _ Hpos).
    + injection Hd as Hfd. subst f. cbn [bind].
      now rewrite (true_divide_pos _ _ Hpos).
    + discriminate.
  - intros a w d length_pool count_pool laps Hpos Hlaps.
    unfold get_mean_speed, Swimming_get_mean_speed.
    cbn [py_mul to_float bind]. rewrite Hlaps.
    cbn [bind py_truediv M_IN_KM to_float duration].
    change (PyFloat.of_int 1000) with (Ok 1000%float). cbn [bind].
    rewrite (true_divide_pos _ 1000%float eq_refl).
    cbn [bind py_truediv to_float].
    now rewrite (true_divide_pos _ _ Hpos).
Qed.

Lemma mean_speed_is_distance_over_duration_witness :
  get_mean_speed (Running (VInt 15000) (VFloat 1) (VFloat 75))
  = Ok (VFloat (9.75 / 1))
  /\ get_mean_speed (Swimming (VInt 720) (VFloat 1) (VFloat 80) (VFloat 25) (VInt 40))
     = Ok (VFloat (25 * 40 / 1000 / 1)).
Proof.
  split.
  - apply (proj1 mean_speed_is_distance_over_duration
             (Running (VInt 15000) (VFloat 1) (VFloat 75)) 9.75%float 1%float);
      vm_compute; reflexivity.
  - apply (proj2 mean_speed_is_distance_over_duration
             (VInt 720) (VFloat 80) 1%float 25%float 40 40%float);
      vm_compute; reflexivity.
Defined.

(** ** Swimming: the strokes do not enter speed or calories *)

(** C10: two Swimming readings that differ only in [action] have the same
    mean speed and the same calories; [action] enters the distance only,
    so that the distance of a summary and its mean speed times its
    duration can disagree (0.9936 against 1.0 for the sample package). *)
Theorem swimming_speed_ignores_action :
  (forall a a' d w length_pool count_pool : value,
      get_mean_speed (Swimming a d w length_pool count_pool)
      = get_mean_speed (Swimming a' d w length_pool count_pool)
      /\ get_spent_calories (Swimming a d w length_pool count_pool)
         = get_spent_calories (Swimming a' d w length_pool count_pool))
  /\ get_distance (Swimming (VInt 720) (VInt 1) (VInt 80) (VInt 25) (VInt 40))
     <> get_distance (Swimming (VInt 721) (VInt 1) (VInt 80) (VInt 25) (VInt 40))
  /\ (exists dist s covered,
         get_distance swimming_A = Ok dist
         /\ get_mean_speed swimming_A = Ok s
         /\ py_mul s (duration swimming_A) = Ok covered
         /\ dist <> covered
         /\ approx dist 0.994 = true /\ approx covered 1.000 = true).
Proof.
  split; [ | split ].
  - intros. split; reflexivity.
  - vm_compute. discriminate.
  - exists (VFloat (720 * 1.38 / 1000)), (VFloat 1), (VFloat 1).
    repeat split; try (vm_compute; reflexivity). vm_compute. discriminate.
Qed.

(** ** read_package *)

Lemma dict_get_None {A : Type} (d : list (string * A)) (key : string) :
  ~ In key (map fst d) -> dict_get d key = None.
Proof.
  induction d as [ | [k v] d IH]; intros Hnot; [ reflexivity | ].
  simpl in *. destruct (String.eqb_spec k key) as [-> | Hne].
  - elim Hnot. now left.
  - apply IH. intros Hin. apply Hnot. now right.
Qed.

Lemma dict_get_In {A : Type} (d : list (string * A)) (key : string) (v : A) :
  dict_get d key = Some v -> In key (map fst d).
Proof.
  induction d as [ | [k w] d IH]; simpl; [ discriminate | ].
  destruct (String.eqb_spec k key) as [-> | Hne]; intros H.
  - now left.
  - right. now apply IH.
Qed.

Lemma workout_type_cases (P : string -> Prop) :
  P "SWM" -> P "RUN" -> P "WLK" -> P "CYC" ->
  forall code, In code workout_types -> P code.
Proof.
  intros H1 H2 H3 H4 code [<- | [<- | [<- | [<- | []]]]]; assumption.
Qed.

(** C6, as the code has it: for a code outside SWM, RUN, WLK and CYC
    [read_package] raises [ValueError] with the message
    'Некорректный тип тренировки ' followed by the code; it returns a
    reading only for a code of that set, and for such a code and a list of
    the right length the reading is of the class of the code. *)
Theorem read_package_dispatch :
  (forall code data,
      ~ In code ["SWM"; "RUN"; "WLK"; "CYC"] ->
      read_package code data
      = Raise (ValueError ("Некорректный тип тренировки " ++ code)))
  /\ (forall code data self,
         read_package code data = Ok self ->
         In code ["SWM"; "RUN"; "WLK"; "CYC"])
  /\ (forall a d w l c,
         read_package "SWM" [a; d; w; l; c] = Ok (Swimming a d w l c))
  /\ (forall a d w, read_package "RUN" [a; d; w] = Ok (Running a d w))
  /\ (forall a d w h,
         read_package "WLK" [a; d; w; h] = Ok (SportsWalking a d w h))
  /\ (forall a d w t, read_package "CYC" [a; d; w; t] = Ok (Cycling a d w t)).
Proof.
  split; [ | split; [ | repeat split ] ].
  - intros code data Hnot. unfold read_package.
    now rewrite (dict_get_None training_type code Hnot).
  - intros code data self. unfold read_package.
    destruct (dict_get training_type code) as [cls | ] eqn:Hget; [ | discriminate ].
    intros _. exact (dict_get_In _ _ _ Hget).
Qed.

Lemma read_package_dispatch_witness :
  read_package "XYZ" [VInt 1; VInt 2; VInt 3]
  = Raise (ValueError "Некорректный тип тренировки XYZ")
  /\ In "RUN" ["SWM"; "RUN"; "WLK"; "CYC"].
Proof.
  split.
  - apply (proj1 read_package_dispatch "XYZ").
    intros [H | [H | [H | [H | []]]]]; discriminate H.
  - apply (proj1 (proj2 read_package_dispatch) "RUN"
             [VInt 15000; VInt 1; VInt 75] running_B).
    reflexivity.
Defined.

(** C6 as stated fails: the exception raised for an unknown code is a
    [ValueError], no other class; and a code of the set does not always
    yield a reading. *)
Lemma read_package_unknown_code_error_class :
  (exists e, read_package "XYZ" [] = Raise e
             /\ exn_name e = "ValueError"
             /\ exn_name e <> "UnknownWorkoutTypeError")
  /\ In "RUN" ["SWM"; "RUN"; "WLK"; "CYC"]
  /\ returns (read_package "RUN" []) = false.
Proof.
  split; [ | split ].
  - exists (ValueError "Некорректный тип тренировки XYZ").
    repeat split. discriminate.
  - right. now left.
  - reflexivity.
Qed.

Ltac by_length data :=
  destruct data as [ | ? [ | ? [ | ? [ | ? [ | ? [ | ? ? ] ] ] ] ] ];
  simpl; split; intros Hlen;
  try reflexivity; try discriminate Hlen; now elim Hlen.

Lemma new_Swimming_arity (data : list value) :
  (List.length data <> 5%nat -> new_Swimming data = Raise TypeError)
  /\ (List.length data = 5%nat -> returns (new_Swimming data) = true).
Proof. by_length data. Qed.

Lemma new_Running_arity (data : list value) :
  (List.length data <> 3%nat -> new_Running data = Raise TypeError)
  /\ (List.length data = 3%nat -> returns (new_Running data) = true).
Proof. by_length data. Qed.

Lemma new_SportsWalking_arity (data : list value) :
  (List.length data <> 4%nat -> new_SportsWalking data = Raise TypeError)
  /\ (List.length data = 4%nat -> returns (new_SportsWalking data) = true).
Proof. by_length data. Qed.

Lemma new_Cycling_arity (data : list value) :
  (List.length data <> 4%nat -> new_Cycling data = Raise TypeError)
  /\ (List.length data = 4%nat -> returns (new_Cycling data) = true).
Proof. by_length data. Qed.

(** C8, as the code has it: for a known code and a list whose length is
    not the number of arguments of the class (Swimming 5, Running 3,
    SportsWalking 4, Cycling 4) [read_package] raises [TypeError], the
    error of the call itself; with the right length it returns. *)
Theorem read_package_wrong_arity :
  forall code n data,
    dict_get arities code = Some n ->
    (List.length data <> n -> read_package code data = Raise TypeError)
    /\ (List.length data = n -> returns (read_package code data) = true).
Proof.
  intros code n data Hn.
  assert (Hin : In code workout_types) by exact (dict_get_In _ _ _ Hn).
  revert n Hn. pattern code. revert code Hin.
  apply workout_type_cases; intros n Hn; injection Hn as <-.
  - apply new_Swimming_arity.
  - apply new_Running_arity.
  - apply new_SportsWalking_arity.
  - apply new_Cycling_arity.
Qed.

Lemma read_package_wrong_arity_witness :
  read_package "RUN" [VInt 15000; VInt 1] = Raise TypeError
  /\ read_package "SWM" [VInt 720; VInt 1; VInt 80; VInt 25; VInt 40; VInt 0]
     = Raise TypeError.
Proof.
  split.
  - apply (read_package_wrong_arity "RUN" 3%nat [VInt 15000; VInt 1]);
      [ reflexivity | discriminate ].
  - apply (read_package_wrong_arity "SWM" 5%nat
             [VInt 720; VInt 1; VInt 80; VInt 25; VInt 40; VInt 0]);
      [ reflexivity | discriminate ].
Defined.

(** C8 as stated fails: the failure of a call with a wrong number of
    values is a [TypeError], not an error of another class. *)
Lemma read_package_wrong_arity_error_class :
  exists e, read_package "RUN" [VInt 15000; VInt 1] = Raise e
            /\ exn_name e = "TypeError"
            /\ exn_name e <> "InvalidReadingError".
Proof.
  exists TypeError. repeat split. discriminate.
Qed.

(** ** The report *)

Lemma round_half_even_nearest (n d : Z) :
  0 < d ->
  let gap := Z.abs (2 * n - 2 * PyFloat.round_half_even n d * d) in
  gap <= d /\ (gap = d -> Z.even (PyFloat.round_half_even n d) = true).
Proof.
  intros Hd. unfold PyFloat.round_half_even.
  pose proof (Z.div_mod n d ltac:(lia)) as Hdiv.
  pose proof (Z.mod_pos_bound n d Hd) as Hmod.
  destruct (Z.ltb_spec (2 * (n mod d)) d);
    [ | destruct (Z.ltb_spec d (2 * (n mod d)));
        [ | destruct (Z.even (n / d)) eqn:Heven ] ];
    cbv zeta; (split; [ nia | intros Hgap ]).
  - nia.
  - nia.
  - exact Heven.
  - rewrite Z.even_add, Heven. reflexivity.
Qed.

Lemma thousandths_nearest (m e : Z) :
  nearest_thousandth m e (PyFloat.thousandths m e).
Proof.
  unfold nearest_thousandth, PyFloat.thousandths.
  destruct (Z.leb_spec 0 e) as [He | He]; cbv zeta.
  - rewrite Z.max_l, Z.max_r by lia. change (2 ^ 0) with 1. split; lia.
  - rewrite Z.max_r, Z.max_l by lia. change (2 ^ 0) with 1.
    assert (Hd : 0 < 2 ^ (- e)) by (apply Z.pow_pos_nonneg; lia).
    pose proof (round_half_even_nearest (1000 * m) (2 ^ (- e)) Hd) as [H1 H2].
    rewrite !Z.mul_1_r. split; [ exact H1 | exact H2 ].
Qed.

Lemma thousandths_nonneg (m e : Z) : 0 <= m -> 0 <= PyFloat.thousandths m e.
Proof.
  intros Hm. unfold PyFloat.thousandths, PyFloat.round_half_even.
  destruct (Z.leb_spec 0 e) as [He | He].
  - assert (0 <= 2 ^ e) by (apply Z.pow_nonneg; lia). nia.
  - assert (Hd : 0 < 2 ^ (- e)) by (apply Z.pow_pos_nonneg; lia).
    assert (0 <= 1000 * m / 2 ^ (- e)) by (apply Z.div_pos; lia).
    destruct (_ <? _); [ | destruct (_ <? _); [ | destruct (Z.even _) ] ]; lia.
Qed.

(** The three characters of [digits3 k] are the decimal digits of [k]. *)
Lemma digits3_decimal (k : Z) :
  0 <= k < 1000 ->
  exists a b c,
    0 <= a < 10 /\ 0 <= b < 10 /\ 0 <= c < 10
    /\ k = 100 * a + 10 * b + c
    /\ PyFloat.digits3 k
       = String (PyFloat.digit a) (String (PyFloat.digit b)
           (String (PyFloat.digit c) "")).
Proof.
  intros Hk. exists (k / 100 mod 10), (k / 10 mod 10), (k mod 10).
  pose proof (Z.mod_pos_bound (k / 100) 10 ltac:(lia)).
  pose proof (Z.mod_pos_bound (k / 10) 10 ltac:(lia)).
  pose proof (Z.mod_pos_bound k 10 ltac:(lia)).
  repeat split; try lia.
  pose proof (Z.div_mod k 10 ltac:(lia)).
  pose proof (Z.div_mod (k / 10) 10 ltac:(lia)).
  assert (E : k / 100 = k / 10 / 10) by (rewrite Z.div_div; lia || reflexivity).
  assert (k / 100 mod 10 = k / 100)
    by (apply Z.mod_small; split;
        [ apply Z.div_pos; lia | apply Z.div_lt_upper_bound; lia ]).
  lia.
Qed.

(** A value that came out of a true division is a float. *)
Lemma py_truediv_float (a b v : value) :
  py_truediv a b = Ok v -> exists f, v = VFloat f.
Proof.
  unfold py_truediv.
  destruct a as [x | x | x], b as [y | y | y]; cbn [to_float bind];
    try discriminate;
    repeat match goal with
           | |- context [bind ?c _] => destruct c; cbn [bind]
           end;
    try discriminate; intros H; injection H as <-; eauto.
Qed.

(** Dividing a float by a value converts the value. *)
Lemma py_truediv_by (x : float) (b v : value) :
  py_truediv (VFloat x) b = Ok v -> exists y, to_float b = Ok y.
Proof.
  unfold py_truediv. destruct b as [y | y | y]; cbn [to_float bind];
    try discriminate; [ | eauto ].
  destruct (PyFloat.of_int y); cbn [bind]; [ eauto | discriminate ].
Qed.

Lemma py_mul_float_l (x : float) (b v : value) :
  py_mul (VFloat x) b = Ok v -> exists f, v = VFloat f.
Proof.
  unfold py_mul. destruct b as [y | y | y]; cbn [to_float bind];
    try discriminate.
  - destruct (PyFloat.of_int y); cbn [bind]; [ | discriminate ].
    intros H; injection H as <-; eauto.
  - intros H; injection H as <-; eauto.
Qed.

Lemma py_add_float_l (x : float) (b v : value) :
  py_add (VFloat x) b = Ok v -> exists f, v = VFloat f.
Proof.
  unfold py_add. destruct b as [y | y | y]; cbn [to_float bind];
    try discriminate.
  - destruct (PyFloat.of_int y); cbn [bind]; [ | discriminate ].
    intros H; injection H as <-; eauto.
  - intros H; injection H as <-; eauto.
Qed.

Lemma bind_Ok {A B : Type} (c : result A) (k : A -> result B) (b : B) :
  bind c k = Ok b -> exists a, c = Ok a /\ k a = Ok b.
Proof. destruct c; cbn; [ eauto | discriminate ]. Qed.

Lemma get_distance_float (self : training) (v : value) :
  get_distance self = Ok v -> exists f, v = VFloat f.
Proof.
  intros H.
  assert (E : get_distance self
              = (steps <- py_mul (action self) (LEN_STEP self);;
                 py_truediv steps M_IN_KM))
    by (destruct self; reflexivity).
  rewrite E in H. apply bind_Ok in H as (steps & _ & H).
  exact (py_truediv_float _ _ _ H).
Qed.

(** A mean speed is a float, and the duration it was divided by is a
    number. *)
Lemma get_mean_speed_float (self : training) (v : value) :
  get_mean_speed self = Ok v ->
  (exists f, v = VFloat f) /\ (exists d, to_float (duration self) = Ok d).
Proof.
  intros H.
  assert (E : exists x, py_truediv (VFloat x) (duration self) = Ok v).
  { destruct self; cbn [get_mean_speed] in H;
      unfold Training_get_mean_speed, Swimming_get_mean_speed in H.
    1-4: apply bind_Ok in H as (dist & Hd & H);
      apply get_distance_float in Hd as (x & ->); eauto.
    apply bind_Ok in H as (pool & _ & H).
    apply bind_Ok in H as (km & Hkm & H).
    apply py_truediv_float in Hkm as (x & ->). eauto. }
  destruct E as (x & E). split.
  - exact (py_truediv_float _ _ _ E).
  - exact (py_truediv_by _ _ _ E).
Qed.

Ltac open_bind H :=
  let x := fresh "x" in
  let Hx := fresh "Hx" in
  apply bind_Ok in H as (x & Hx & H).

Lemma get_spent_calories_float (self : training) (v : value) :
  get_spent_calories self = Ok v -> exists f, v = VFloat f.
Proof.
  intros H. destruct self; cbn [get_spent_calories] in H.
  - discriminate.
  - unfold Cycling_get_spent_calories in H.
    do 3 open_bind H. apply py_truediv_float in Hx1 as (f & ->).
    exact (py_mul_float_l _ _ _ H).
  - unfold Running_get_spent_calories in H.
    do 6 open_bind H. apply py_truediv_float in Hx4 as (f & ->).
    exact (py_mul_float_l _ _ _ H).
  - unfold SportsWalking_get_spent_calories in H.
    do 8 open_bind H. unfold COEFF_CALORIES_1 in Hx.
    apply py_mul_float_l in Hx as (f & ->).
    apply py_add_float_l in Hx5 as (g & ->).
    exact (py_mul_float_l _ _ _ H).
  - unfold Swimming_get_spent_calories in H.
    do 3 open_bind H. apply get_mean_speed_float in Hx as ((f & ->) & _).
    apply py_add_float_l in Hx0 as (g & ->).
    apply py_mul_float_l in Hx1 as (h & ->).
    exact (py_mul_float_l _ _ _ H).
Qed.

(** C9, as the code has it: whenever a reading has a summary, the
    message is the template
    'Тип тренировки: {training_type}; Длительность: {duration:.3f} ч.;
    Дистанция: {distance:.3f} км; Ср. скорость: {speed:.3f} км/ч;
    Потрачено ккал: {calories:.3f}.' filled with the name of the class and
    the four numbers; and a finite number is written with its sign, the
    digits of the nearest count of thousandths (a tie goes to the even
    one), a point before the last three of them. *)
Theorem report_template :
  (forall self info,
      show_training_info self = Ok info ->
      exists d dist s c : float,
        to_float (duration self) = Ok d
        /\ InfoMessage.distance info = VFloat dist
        /\ InfoMessage.speed info = VFloat s
        /\ InfoMessage.calories info = VFloat c
        /\ InfoMessage.get_message info
           = Ok ("Тип тренировки: " ++ class_name self
                 ++ "; Длительность: " ++ PyFloat.format_3f d
                 ++ " ч.; Дистанция: " ++ PyFloat.format_3f dist
                 ++ " км; Ср. скорость: " ++ PyFloat.format_3f s
                 ++ " км/ч; Потрачено ккал: " ++ PyFloat.format_3f c ++ "."))
  /\ (forall f sign m e,
         Prim2SF f = S754_finite sign m e ->
         exists n a b c,
           nearest_thousandth (Zpos m) e n
           /\ 0 <= n
           /\ 0 <= a < 10 /\ 0 <= b < 10 /\ 0 <= c < 10
           /\ n mod 1000 = 100 * a + 10 * b + c
           /\ PyFloat.format_3f f
              = (if sign then "-" else "") ++ PyFloat.decimal (n / 1000) ++ "."
                ++ String (PyFloat.digit a) (String (PyFloat.digit b)
                     (String (PyFloat.digit c) "")))
  /\ (forall f sign,
         Prim2SF f = S754_zero sign ->
         PyFloat.format_3f f = if sign then "-0.000" else "0.000").
Proof.
  split; [ | split ].
  - intros self info H. unfold show_training_info in H.
    apply bind_Ok in H as (vdist & Hdist & H).
    apply bind_Ok in H as (vs & Hs & H).
    apply bind_Ok in H as (vc & Hc & H).
    injection H as <-.
    apply get_distance_float in Hdist as (dist & ->).
    apply get_mean_speed_float in Hs as ((s & ->) & (d & Hd)).
    apply get_spent_calories_float in Hc as (c & ->).
    exists d, dist, s, c. repeat split; try assumption.
    unfold InfoMessage.get_message. cbn [InfoMessage.duration
      InfoMessage.distance InfoMessage.speed InfoMessage.calories
      InfoMessage.training_type].
    assert (Hfd : py_format_3f (duration self) = Ok (PyFloat.format_3f d)).
    { destruct (duration self) as [z | g | t]; cbn [to_float py_format_3f] in *.
      - rewrite Hd. reflexivity.
      - now injection Hd as ->.
      - discriminate. }
    rewrite Hfd. cbn [bind py_format_3f]. reflexivity.
  - intros f sign m e Hf.
    pose proof (thousandths_nearest (Zpos m) e) as Hnear.
    pose proof (thousandths_nonneg (Zpos m) e ltac:(lia)) as Hpos.
    set (n := PyFloat.thousandths (Zpos m) e) in *.
    destruct (digits3_decimal (n mod 1000)) as (a & b & c & Ha & Hb & Hc & Hk & Hd).
    { apply Z.mod_pos_bound. lia. }
    exists n, a, b, c. split; [ exact Hnear | ].
    repeat split; try assumption; try lia.
    unfold PyFloat.format_3f. rewrite Hf. unfold PyFloat.fixed3.
    fold n. now rewrite Hd.
  - intros f sign Hf. unfold PyFloat.format_3f. rewrite Hf.
    now destruct sign.
Qed.

Lemma report_template_witness :
  (exists d dist s c : float,
      to_float (duration swimming_A) = Ok d
      /\ InfoMessage.distance info_A = VFloat dist
      /\ InfoMessage.speed info_A = VFloat s
      /\ InfoMessage.calories info_A = VFloat c
      /\ InfoMessage.get_message info_A
         = Ok ("Тип тренировки: " ++ class_name swimming_A
               ++ "; Длительность: " ++ PyFloat.format_3f d
               ++ " ч.; Дистанция: " ++ PyFloat.format_3f dist
               ++ " км; Ср. скорость: " ++ PyFloat.format_3f s
               ++ " км/ч; Потрачено ккал: " ++ PyFloat.format_3f c ++ "."))
  /\ (exists n a b c,
         nearest_thousandth 8949553179510650 (-53) n
         /\ 0 <= n
         /\ 0 <= a < 10 /\ 0 <= b < 10 /\ 0 <= c < 10
         /\ n mod 1000 = 100 * a + 10 * b + c
         /\ PyFloat.format_3f 0.9936
            = "" ++ PyFloat.decimal (n / 1000) ++ "."
              ++ String (PyFloat.digit a) (String (PyFloat.digit b)
                   (String (PyFloat.digit c) ""))).
Proof.
  split.
  - apply (proj1 report_template swimming_A info_A).
    vm_compute. reflexivity.
  - apply (proj1 (proj2 report_template) 0.9936%float false
             8949553179510650%positive (-53)).
    vm_compute. reflexivity.
Defined.

(** C9 as stated fails: the report of the sample Swimming package is not
    the English template filled in, and a number that is not finite is
    written without decimals. *)
Lemma report_not_the_english_template :
  (exists info line,
      show_training_info swimming_A = Ok info
      /\ InfoMessage.get_message info = Ok line
      /\ line = "Тип тренировки: Swimming; Длительность: 1.000 ч.; Дистанция: 0.994 км; Ср. скорость: 1.000 км/ч; Потрачено ккал: 336.000."
      /\ line <> "Activity type: Swimming; Duration: 1.000 h; Distance: 0.994 km; Mean speed: 1.000 km/h; Calories: 336.000.")
  /\ main (Swimming (VInt 720) (VFloat 1) (VFloat 80) (VFloat 1e308) (VInt 100000)) []
     = (Ok tt,
        ["Тип тренировки: Swimming; Длительность: 1.000 ч.; Дистанция: 0.994 км; Ср. скорость: inf км/ч; Потрачено ккал: inf."]).
Proof.
  split.
  - exists info_A. eexists. split; [ vm_compute; reflexivity | ].
    split; [ vm_compute; reflexivity | ].
    split; [ reflexivity | discriminate ].
  - vm_compute. reflexivity.
Qed.

(** ** Errors of the formulas *)





Lemma main_raises (self : training) (e : exn) (out : stdout) :
  show_training_info self = Raise e -> main self out = (Raise e, out).
Proof. intros H. unfold main. now rewrite H. Qed.






(** * Further properties *)

(** ** Signs of products and quotients *)

Lemma not_negative_spec (x : float) :
  (x <? 0)%float = false <-> sf_not_negative (Prim2SF x) = true.
Proof.
  rewrite ltb_spec. change (Prim2SF 0%float) with (S754_zero false).
  destruct (Prim2SF x) as [s | s | | s m e]; try destruct s; cbv;
    split; intros H; try reflexivity; discriminate H.
Qed.

Lemma positive_spec (x : float) :
  (0 <? x)%float = true ->
  Prim2SF x = S754_infinity false
  \/ exists m e, Prim2SF x = S754_finite false m e.
Proof.
  rewrite ltb_spec. change (Prim2SF 0%float) with (S754_zero false).
  destruct (Prim2SF x) as [s | s | | s m e]; try destruct s; cbv;
    try discriminate; eauto.
Qed.

Lemma positive_not_negative (x : float) :
  (0 <? x)%float = true -> (x <? 0)%float = false.
Proof.
  intros H. apply not_negative_spec.
  destruct (positive_spec x H) as [-> | (m & e & ->)]; reflexivity.
Qed.

Lemma binary_round_aux_not_negative (m e : Z) (l : location) :
  sf_not_negative (binary_round_aux prec emax false m e l) = true.
Proof.
  unfold binary_round_aux.
  destruct (shr_fexp prec emax m e l) as [r1 e1].
  destruct (shr_fexp prec emax _ e1 loc_Exact) as [r2 e2].
  destruct (shr_m r2); try reflexivity.
  destruct (_ <=? _)%Z; reflexivity.
Qed.

Lemma mul_not_negative (x y : float) :
  (x <? 0)%float = false -> (y <? 0)%float = false ->
  (x * y <? 0)%float = false.
Proof.
  rewrite !not_negative_spec, mul_spec. unfold SF64mul.
  destruct (Prim2SF x) as [[|] | [|] | | [|] mx ex],
           (Prim2SF y) as [[|] | [|] | | [|] my ey];
    simpl; try discriminate; try reflexivity; intros _ _;
    apply binary_round_aux_not_negative.
Qed.

Lemma div_not_negative (x y : float) :
  (x <? 0)%float = false -> (0 <? y)%float = true ->
  (x / y <? 0)%float = false.
Proof.
  intros Hx Hy. apply not_negative_spec in Hx. apply not_negative_spec.
  rewrite div_spec. unfold SF64div.
  destruct (positive_spec y Hy) as [-> | (my & ey & ->)];
    destruct (Prim2SF x) as [[|] | [|] | | [|] mx ex];
    simpl in *; try discriminate; try reflexivity.
  destruct (SFdiv_core_binary _ _ _ _ _ _) as [[mz ez] lz].
  apply binary_round_aux_not_negative.
Qed.

Lemma binary_round_not_negative (m : BinNums.positive) (e : Z) :
  sf_not_negative (binary_round prec emax false m e) = true.
Proof.
  unfold binary_round. destruct (shl_align _ _ _) as [mz ez].
  apply binary_round_aux_not_negative.
Qed.

(** The float of an int that is not negative is not negative. *)
Lemma of_int_not_negative (a : Z) (fa : float) :
  0 <= a -> PyFloat.of_int a = Ok fa -> (fa <? 0)%float = false.
Proof.
  intros Ha. unfold PyFloat.of_int.
  destruct a as [ | p | p]; [ | | lia ].
  - intros H. injection H as <-. reflexivity.
  - cbn [binary_normalize].
    pose proof (binary_round_not_negative p 0) as Hsign.
    destruct (binary_round prec emax false p 0) as [s | s | | s m e];
      try discriminate; intros H; injection H as <-.
    + destruct s; reflexivity.
    + reflexivity.
    + destruct s; [ discriminate Hsign | ].
      apply not_negative_spec. cbn [SF2Prim].
      rewrite Z_ldexp_spec, of_uint63_spec.
      match goal with
      | |- context [binary_normalize _ _ (Uint63Axioms.to_Z ?n)] =>
          pose proof (Uint63.to_Z_bounded n) as Hb;
          destruct (Uint63Axioms.to_Z n) as [ | q | q]; [ | | lia ]
      end.
      * reflexivity.
      * cbn [binary_normalize].
        pose proof (binary_round_not_negative q 0) as Hq.
        destruct (binary_round prec emax false q 0) as [t | t | | t n k];
          cbn [SFldexp]; try assumption.
        destruct t; [ discriminate Hq | ].
        apply binary_round_not_negative.
Qed.

(** ** Operators on a float and a number *)

Lemma py_mul_number_l (a : value) (fa y : float) :
  to_float a = Ok fa -> py_mul a (VFloat y) = Ok (VFloat (fa * y)).
Proof.
  destruct a as [z | f | t]; cbn [to_float py_mul bind]; intros H;
    [ now rewrite H | now injection H as -> | discriminate H ].
Qed.

Lemma py_mul_number_r (x : float) (b : value) (fb : float) :
  to_float b = Ok fb -> py_mul (VFloat x) b = Ok (VFloat (x * fb)).
Proof.
  destruct b as [z | f | t]; cbn [to_float py_mul bind]; intros H;
    [ now rewrite H | now injection H as -> | discriminate H ].
Qed.

Lemma py_truediv_number_r (x : float) (b : value) (fb : float) :
  to_float b = Ok fb ->
  py_truediv (VFloat x) b = (q <- PyFloat.true_divide x fb;; Ok (VFloat q)).
Proof.
  destruct b as [z | f | t]; cbn [to_float py_truediv bind]; intros H;
    [ now rewrite H | now injection H as -> | discriminate H ].
Qed.

Lemma py_truediv_km (x : float) :
  py_truediv (VFloat x) M_IN_KM = Ok (VFloat (x / 1000)).
Proof. reflexivity. Qed.

Lemma get_distance_inherited (self : training) :
  get_distance self = Training_get_distance self.
Proof. destruct self; reflexivity. Qed.

Lemma get_distance_number (self : training) (fa : float) :
  to_float (action self) = Ok fa ->
  get_distance self = Ok (VFloat (fa * step_length self / 1000)).
Proof.
  intros Ha. rewrite get_distance_inherited. unfold Training_get_distance.
  assert (Hstep : LEN_STEP self = VFloat (step_length self))
    by (destruct self; reflexivity).
  rewrite Hstep, (py_mul_number_l _ _ _ Ha). cbn [bind].
  apply py_truediv_km.
Qed.

Lemma step_length_not_negative (self : training) :
  (step_length self <? 0)%float = false.
Proof. destruct self; reflexivity. Qed.

(** ** Distance *)

(** X1: the distance of every instance is the float of its action times
    the step length of its class (0.65 m; cycling 1.40 m; swimming 1.38 m)
    over 1000, for an int as for a float action; the overrides of
    [get_distance] in Cycling and Swimming compute what the inherited
    method computes. *)
Theorem get_distance_formula :
  (forall self, get_distance self = Training_get_distance self)
  /\ (forall self fa,
         to_float (action self) = Ok fa ->
         get_distance self = Ok (VFloat (fa * step_length self / 1000))).
Proof.
  split; [ exact get_distance_inherited | exact get_distance_number ].
Qed.

Lemma get_distance_formula_witness :
  get_distance (Cycling (VInt 10000) (VInt 1) (VInt 75) (VStr "trial"))
  = Ok (VFloat (10000 * 1.40 / 1000)).
Proof.
  apply (proj2 get_distance_formula
           (Cycling (VInt 10000) (VInt 1) (VInt 75) (VStr "trial")) 10000%float).
  reflexivity.
Defined.

(** X2: a distance is never below zero when the action is not: for a
    float action that is not below zero, and for an int action from 0 up
    that converts to a float. *)
Theorem get_distance_not_negative :
  forall self fa,
    to_float (action self) = Ok fa ->
    (fa <? 0)%float = false \/ (exists a, action self = VInt a /\ 0 <= a) ->
    exists d, get_distance self = Ok (VFloat d) /\ (d <? 0)%float = false.
Proof.
  intros self fa Ha Hsign.
  assert (Hfa : (fa <? 0)%float = false).
  { destruct Hsign as [H | (a & Hint & Hpos)]; [ exact H | ].
    rewrite Hint in Ha. exact (of_int_not_negative a fa Hpos Ha). }
  eexists. split; [ exact (get_distance_number self fa Ha) | ].
  apply div_not_negative; [ | reflexivity ].
  apply mul_not_negative; [ exact Hfa | apply step_length_not_negative ].
Qed.

Lemma get_distance_not_negative_witness :
  exists d, get_distance swimming_A = Ok (VFloat d) /\ (d <? 0)%float = false.
Proof.
  apply (get_distance_not_negative swimming_A 720%float).
  - reflexivity.
  - right. exists 720. split; [ reflexivity | lia ].
Defined.

(** ** Mean speed *)

Lemma get_mean_speed_number (self : training) (fa fd : float) :
  is_Swimming self = false ->
  to_float (action self) = Ok fa ->
  to_float (duration self) = Ok fd ->
  get_mean_speed self
  = (q <- PyFloat.true_divide (fa * step_length self / 1000) fd;; Ok (VFloat q)).
Proof.
  intros Hcls Ha Hd.
  assert (E : get_mean_speed self = Training_get_mean_speed self)
    by (destruct self; try discriminate Hcls; reflexivity).
  rewrite E. unfold Training_get_mean_speed.
  rewrite (get_distance_number self fa Ha). cbn [bind].
  apply (py_truediv_number_r _ _ _ Hd).
Qed.

Lemma inherited_speed_not_negative (self : training) (fa fd : float) :
  is_Swimming self = false ->
  to_float (action self) = Ok fa -> (fa <? 0)%float = false ->
  to_float (duration self) = Ok fd -> (0 <? fd)%float = true ->
  exists s, get_mean_speed self = Ok (VFloat s) /\ (s <? 0)%float = false.
Proof.
  intros Hcls Ha Hfa Hd Hfd.
  rewrite (get_mean_speed_number self fa fd Hcls Ha Hd).
  rewrite (true_divide_pos _ _ Hfd). cbn [bind].
  eexists. split; [ reflexivity | ].
  apply div_not_negative; [ | exact Hfd ].
  apply div_not_negative; [ | reflexivity ].
  apply mul_not_negative; [ exact Hfa | apply step_length_not_negative ].
Qed.

(** X3: with a duration above zero, a mean speed is never below zero when
    what it is computed from is not: the action for the classes on foot
    or bike, the length of the pool and the number of laps for
    swimming. *)
Theorem get_mean_speed_not_negative :
  (forall self fa fd,
      is_Swimming self = false ->
      to_float (action self) = Ok fa -> (fa <? 0)%float = false ->
      to_float (duration self) = Ok fd -> (0 <? fd)%float = true ->
      exists s, get_mean_speed self = Ok (VFloat s) /\ (s <? 0)%float = false)
  /\ (forall a d w count_pool (length_pool laps fd : float),
         (length_pool <? 0)%float = false ->
         to_float count_pool = Ok laps -> (laps <? 0)%float = false ->
         to_float d = Ok fd -> (0 <? fd)%float = true ->
         exists s,
           get_mean_speed (Swimming a d w (VFloat length_pool) count_pool)
           = Ok (VFloat s)
           /\ (s <? 0)%float = false).
Proof.
  split; [ exact inherited_speed_not_negative | ].
  - intros a d w count_pool length_pool laps fd Hl Hc Hlaps Hd Hfd.
    unfold get_mean_speed, Swimming_get_mean_speed.
    rewrite (py_mul_number_r _ _ _ Hc). cbn [bind].
    rewrite py_truediv_km. cbn [bind duration].
    rewrite (py_truediv_number_r _ _ _ Hd), (true_divide_pos _ _ Hfd).
    cbn [bind]. eexists. split; [ reflexivity | ].
    apply div_not_negative; [ | exact Hfd ].
    apply div_not_negative; [ | reflexivity ].
    now apply mul_not_negative.
Qed.

Lemma get_mean_speed_not_negative_witness :
  (exists s, get_mean_speed running_B = Ok (VFloat s) /\ (s <? 0)%float = false)
  /\ (exists s,
         get_mean_speed (Swimming (VInt 720) (VInt 1) (VInt 80) (VFloat 25) (VInt 40))
         = Ok (VFloat s)
         /\ (s <? 0)%float = false).
Proof.
  split.
  - apply (proj1 get_mean_speed_not_negative running_B 15000%float 1%float);
      reflexivity.
  - apply (proj2 get_mean_speed_not_negative (VInt 720) (VInt 1) (VInt 80)
             (VInt 40) 25%float 40%float 1%float); reflexivity.
Defined.

(** ** Calories *)

Lemma training_mins_float (d : float) :
  py_mul (VFloat d) MINUTES_IN_HOUR = Ok (VFloat (d * 60)).
Proof. reflexivity. Qed.

Lemma Cycling_calories_number (a area w : value) (d s fw : float) :
  get_mean_speed (Cycling a (VFloat d) w area) = Ok (VFloat s) ->
  to_float w = Ok fw ->
  get_spent_calories (Cycling a (VFloat d) w area)
  = Ok (VFloat ((if py_eq_str area "trail" then 6 else 2.5)
                * s * fw / 1000 * (d * 60))).
Proof.
  intros Hs Hw. unfold get_spent_calories, Cycling_get_spent_calories.
  destruct (py_eq_str area "trail"); rewrite Hs; cbn [bind weight];
    [ change (py_mul COEFF_FOR_TRAIL (VFloat s)) with (Ok (VFloat (6 * s)))
    | change (py_mul COEFF_FOR_CLASSIC (VFloat s)) with (Ok (VFloat (2.5 * s))) ];
    cbn [bind]; rewrite (py_mul_number_r _ _ _ Hw); reflexivity.
Qed.

(** X4: the calories of a Cycling reading are never below zero when its
    action and its weight are not and its duration is above zero, on a
    trail as elsewhere. *)
Theorem Cycling_calories_not_negative :
  forall (a w area : value) (d fa fw : float),
    to_float a = Ok fa -> (fa <? 0)%float = false ->
    to_float w = Ok fw -> (fw <? 0)%float = false ->
    (0 <? d)%float = true ->
    exists c,
      get_spent_calories (Cycling a (VFloat d) w area) = Ok (VFloat c)
      /\ (c <? 0)%float = false.
Proof.
  intros a w area d fa fw Ha Hfa Hw Hfw Hd.
  destruct (inherited_speed_not_negative (Cycling a (VFloat d) w area) fa d
              eq_refl Ha Hfa eq_refl Hd) as (s & Hs & Hsign).
  rewrite (Cycling_calories_number a area w d s fw Hs Hw).
  eexists. split; [ reflexivity | ].
  apply mul_not_negative.
  - apply div_not_negative; [ | reflexivity ].
    apply mul_not_negative; [ | exact Hfw ].
    apply mul_not_negative; [ | exact Hsign ].
    destruct (py_eq_str area "trail"); reflexivity.
  - apply mul_not_negative; [ | reflexivity ].
    now apply positive_not_negative.
Qed.

Lemma Cycling_calories_not_negative_witness :
  exists c,
    get_spent_calories (Cycling (VInt 10000) (VFloat 1) (VInt 75) (VStr "trail"))
    = Ok (VFloat c)
    /\ (c <? 0)%float = false.
Proof.
  apply (Cycling_calories_not_negative (VInt 10000) (VInt 75) (VStr "trail")
           1%float 10000%float 75%float); reflexivity.
Defined.

(** X5: the calories of a Running reading with a mean speed and a float
    duration are [(18 * speed - 20) * weight / 1000 * (duration * 60)], the
    weight an int or a float. *)
Theorem Running_calories_formula :
  forall (a w : value) (d s fw : float),
    get_mean_speed (Running a (VFloat d) w) = Ok (VFloat s) ->
    to_float w = Ok fw ->
    get_spent_calories (Running a (VFloat d) w)
    = Ok (VFloat ((18 * s - 20) * fw / 1000 * (d * 60))).
Proof.
  intros a w d s fw Hs Hw. unfold get_spent_calories, Running_get_spent_calories.
  rewrite Hs. cbn [bind weight].
  change (py_mul COEFF3 (VFloat s)) with (Ok (VFloat (18 * s))). cbn [bind].
  change (py_sub (VFloat (18 * s)) COEFF4) with (Ok (VFloat (18 * s - 20))).
  cbn [bind]. rewrite (py_mul_number_r _ _ _ Hw). reflexivity.
Qed.

Lemma Running_calories_formula_witness :
  get_spent_calories (Running (VInt 15000) (VFloat 1) (VInt 75))
  = Ok (VFloat ((18 * 9.75 - 20) * 75 / 1000 * (1 * 60))).
Proof.
  apply (Running_calories_formula (VInt 15000) (VInt 75) 1%float 9.75%float
           75%float); reflexivity.
Defined.

(** X6: the calories of a Swimming reading with a mean speed are
    [(speed + 1.1) * 2 * weight], whatever its action and its duration. *)
Theorem Swimming_calories_formula :
  forall (a d w length_pool count_pool : value) (s fw : float),
    get_mean_speed (Swimming a d w length_pool count_pool) = Ok (VFloat s) ->
    to_float w = Ok fw ->
    get_spent_calories (Swimming a d w length_pool count_pool)
    = Ok (VFloat ((s + 1.1) * 2 * fw)).
Proof.
  intros a d w length_pool count_pool s fw Hs Hw.
  unfold get_spent_calories, Swimming_get_spent_calories.
  rewrite Hs. cbn [bind weight].
  change (py_add (VFloat s) COEFF1) with (Ok (VFloat (s + 1.1))). cbn [bind].
  change (py_mul (VFloat (s + 1.1)) COEFF2) with (Ok (VFloat ((s + 1.1) * 2))).
  cbn [bind]. apply (py_mul_number_r _ _ _ Hw).
Qed.

Lemma Swimming_calories_formula_witness :
  get_spent_calories swimming_A = Ok (VFloat ((1 + 1.1) * 2 * 80)).
Proof.
  apply (Swimming_calories_formula (VInt 720) (VInt 1) (VInt 80) (VInt 25)
           (VInt 40) 1%float 80%float); reflexivity.
Defined.

Lemma zero_over_positive (d : float) :
  (0 <? d)%float = true -> (0 / d)%float = 0%float.
Proof.
  intros Hd. apply Prim2SF_inj. rewrite div_spec.
  change (Prim2SF 0%float) with (S754_zero false).
  destruct (positive_spec d Hd) as [-> | (m & e & ->)]; reflexivity.
Qed.

(** X7: a run of no steps over a duration above zero has the distance 0
    and the mean speed 0, and its calories are
    [-20 * weight / 1000 * (duration * 60)]: the formula of Running goes
    below zero for a slow run. *)
Theorem Running_no_steps :
  forall d w : float,
    (0 <? d)%float = true ->
    get_distance (Running (VInt 0) (VFloat d) (VFloat w)) = Ok (VFloat 0)
    /\ get_mean_speed (Running (VInt 0) (VFloat d) (VFloat w)) = Ok (VFloat 0)
    /\ get_spent_calories (Running (VInt 0) (VFloat d) (VFloat w))
       = Ok (VFloat (-20 * w / 1000 * (d * 60))).
Proof.
  intros d w Hd.
  assert (Hs : get_mean_speed (Running (VInt 0) (VFloat d) (VFloat w))
               = Ok (VFloat 0)).
  { rewrite (get_mean_speed_number (Running (VInt 0) (VFloat d) (VFloat w))
               0%float d eq_refl eq_refl eq_refl).
    rewrite (true_divide_pos _ _ Hd). cbn [bind step_length].
    change (0 * 0.65 / 1000)%float with 0%float.
    now rewrite (zero_over_positive d Hd). }
  split; [ reflexivity | split; [ exact Hs | ] ].
  unfold get_spent_calories, Running_get_spent_calories. rewrite Hs.
  reflexivity.
Qed.

Lemma Running_no_steps_witness :
  get_spent_calories (Running (VInt 0) (VFloat 1) (VFloat 75)) = Ok (VFloat (-90))
  /\ (-90 <? 0)%float = true.
Proof.
  split; [ | reflexivity ].
  rewrite (proj2 (proj2 (Running_no_steps 1%float 75%float eq_refl))).
  reflexivity.
Defined.

(** ** The summary and its report *)

Lemma py_mul_needs_number_l (a v : value) (y : float) :
  py_mul a (VFloat y) = Ok v -> returns (to_float a) = true.
Proof.
  destruct a as [z | f | t]; cbn [py_mul to_float bind];
    [ | reflexivity | discriminate ].
  destruct (PyFloat.of_int z); [ reflexivity | discriminate ].
Qed.

Lemma py_mul_needs_number_r (x : float) (b v : value) :
  py_mul (VFloat x) b = Ok v -> returns (to_float b) = true.
Proof.
  destruct b as [z | f | t]; cbn [py_mul to_float bind];
    [ | reflexivity | discriminate ].
  destruct (PyFloat.of_int z); [ reflexivity | discriminate ].
Qed.

Lemma py_sub_float_l (x : float) (b v : value) :
  py_sub (VFloat x) b = Ok v -> exists f, v = VFloat f.
Proof.
  unfold py_sub. destruct b as [y | y | y]; cbn [to_float bind];
    try discriminate.
  - destruct (PyFloat.of_int y); cbn [bind]; [ | discriminate ].
    intros H; injection H as <-; eauto.
  - intros H; injection H as <-; eauto.
Qed.

Lemma py_mul_float_r (a v : value) (y : float) :
  py_mul a (VFloat y) = Ok v -> exists f, v = VFloat f.
Proof.
  unfold py_mul. destruct a as [x | x | x]; cbn [to_float bind];
    try discriminate.
  - destruct (PyFloat.of_int x); cbn [bind]; [ | discriminate ].
    intros H; injection H as <-; eauto.
  - intros H; injection H as <-; eauto.
Qed.

(** What a summary holds: the name of the class, the duration as stored
    and three floats. *)
Lemma summary_fields (self : training) (info : InfoMessage.t) :
  show_training_info self = Ok info ->
  exists d dist s c : float,
    to_float (duration self) = Ok d
    /\ get_distance self = Ok (VFloat dist)
    /\ get_mean_speed self = Ok (VFloat s)
    /\ get_spent_calories self = Ok (VFloat c)
    /\ info = InfoMessage.new (class_name self) (duration self)
                (VFloat dist) (VFloat s) (VFloat c).
Proof.
  intros H. unfold show_training_info in H.
  apply bind_Ok in H as (vdist & Hdist & H).
  apply bind_Ok in H as (vs & Hs & H).
  apply bind_Ok in H as (vc & Hc & H).
  injection H as <-.
  destruct (get_distance_float _ _ Hdist) as (dist & ->).
  destruct (get_mean_speed_float _ _ Hs) as ((s & ->) & (d & Hd)).
  destruct (get_spent_calories_float _ _ Hc) as (c & ->).
  exists d, dist, s, c. repeat split; assumption.
Qed.

Lemma py_format_3f_number (v : value) (f : float) :
  to_float v = Ok f -> py_format_3f v = Ok (PyFloat.format_3f f).
Proof.
  destruct v as [z | g | t]; cbn [to_float py_format_3f]; intros H;
    [ now rewrite H | now injection H as -> | discriminate H ].
Qed.

Lemma summary_message (self : training) (info : InfoMessage.t) :
  show_training_info self = Ok info ->
  exists line, InfoMessage.get_message info = Ok line.
Proof.
  intros H.
  destruct (summary_fields self info H) as (d & dist & s & c & Hd & _ & _ & _ & ->).
  unfold InfoMessage.get_message.
  cbn [InfoMessage.duration InfoMessage.distance InfoMessage.speed
         InfoMessage.calories InfoMessage.training_type].
  rewrite (py_format_3f_number _ _ Hd). cbn [bind py_format_3f]. eauto.
Qed.

(** X8: the base class has no calories: on an instance of [Training]
    itself [get_spent_calories] raises [NotImplementedError], so that
    [main] prints nothing for it; with a mean speed that is the error of
    the summary.  [read_package] builds no such instance. *)
Theorem Training_is_abstract :
  forall a d w : value,
    get_spent_calories (Training a d w) = Raise NotImplementedError
    /\ (forall out, exists e, main (Training a d w) out = (Raise e, out))
    /\ (returns (get_mean_speed (Training a d w)) = true ->
        show_training_info (Training a d w) = Raise NotImplementedError)
    /\ (forall code data, read_package code data <> Ok (Training a d w)).
Proof.
  intros a d w. split; [ reflexivity | split; [ | split ] ].
  - intros out. unfold main.
    destruct (show_training_info (Training a d w)) as [info | e] eqn:H; [ | eauto ].
    destruct (summary_fields _ _ H) as (_ & _ & _ & c & _ & _ & _ & Hc & _).
    discriminate Hc.
  - intros Hs. unfold show_training_info.
    destruct (get_mean_speed (Training a d w)) as [s | ] eqn:Es;
      [ | discriminate Hs ].
    assert (Hd : returns (get_distance (Training a d w)) = true).
    { unfold get_mean_speed, Training_get_mean_speed in Es.
      destruct (get_distance (Training a d w)); [ reflexivity | discriminate Es ]. }
    destruct (get_distance (Training a d w)); [ reflexivity | discriminate Hd ].
  - intros code data H. unfold read_package in H.
    destruct (dict_get training_type code) as [cls | ] eqn:Hget; [ | discriminate H ].
    pose proof (dict_get_In _ _ _ Hget) as Hin.
    revert cls Hget H. pattern code. revert code Hin.
    apply workout_type_cases; intros cls Hget H; injection Hget as <-;
      do 6 (try destruct data as [ | ? data ]; try discriminate H).
Qed.

Lemma Training_is_abstract_witness :
  show_training_info (Training (VInt 15000) (VInt 1) (VInt 75))
  = Raise NotImplementedError.
Proof.
  apply (Training_is_abstract (VInt 15000) (VInt 1) (VInt 75)). reflexivity.
Defined.

(** X9: [main] prints exactly one line, the message of the summary, when
    the reading has a summary, no message failing to format then; and it
    prints nothing and fails with the error of the summary otherwise. *)
Theorem main_prints_the_report :
  forall self out,
    (forall info,
        show_training_info self = Ok info ->
        exists line,
          InfoMessage.get_message info = Ok line
          /\ main self out = (Ok tt, (out ++ [line])%list))
    /\ (forall e,
           show_training_info self = Raise e -> main self out = (Raise e, out)).
Proof.
  intros self out. split.
  - intros info H. destruct (summary_message self info H) as (line & Hline).
    exists line. split; [ exact Hline | ].
    unfold main. now rewrite H, Hline.
  - intros e H. now apply main_raises.
Qed.

Lemma main_prints_the_report_witness :
  (exists line,
      InfoMessage.get_message info_A = Ok line
      /\ main swimming_A ["earlier"] = (Ok tt, (["earlier"] ++ [line])%list))
  /\ main (Running (VInt 15000) (VInt 0) (VInt 75)) ["earlier"]
     = (Raise ZeroDivisionError, ["earlier"]).
Proof.
  split.
  - apply (proj1 (main_prints_the_report swimming_A ["earlier"]) info_A).
    vm_compute. reflexivity.
  - apply (proj2 (main_prints_the_report
                    (Running (VInt 15000) (VInt 0) (VInt 75)) ["earlier"])).
    vm_compute. reflexivity.
Defined.

(** ** The driver *)

Lemma main_cases (self : training) (out : stdout) :
  (exists line, main self out = (Ok tt, (out ++ [line])%list))
  \/ (exists e, main self out = (Raise e, out)).
Proof.
  unfold main.
  destruct (show_training_info self) as [info | e];
    [ | right; eexists; reflexivity ].
  destruct (InfoMessage.get_message info) as [line | e];
    [ left | right ]; eexists; reflexivity.
Qed.

(** X10: the loop of the driver only adds lines to the output: at most one
    for each package, and one for each package when it ends without an
    error. *)
Theorem run_adds_lines :
  forall ps out r out',
    run ps out = (r, out') ->
    exists lines,
      out' = (out ++ lines)%list
      /\ (List.length lines <= List.length ps)%nat
      /\ (r = Ok tt -> List.length lines = List.length ps).
Proof.
  induction ps as [ | [code data] ps IH]; intros out r out' H; cbn [run] in H.
  - injection H as <- <-. exists []. rewrite app_nil_r.
    split; [ reflexivity | split; [ apply Nat.le_refl | reflexivity ] ].
  - assert (Hstop : forall e, (Raise e, out) = (r, out') ->
                    exists lines,
                      out' = (out ++ lines)%list
                      /\ (List.length lines <= List.length ((code, data) :: ps))%nat
                      /\ (r = Ok tt ->
                          List.length lines = List.length ((code, data) :: ps))).
    { intros e He. injection He as <- <-. exists []. rewrite app_nil_r.
      split; [ reflexivity | split; [ apply Nat.le_0_l | discriminate ] ]. }
    destruct (read_package code data) as [self | e]; [ | exact (Hstop e H) ].
    destruct (main_cases self out) as [(line & Hm) | (e & Hm)]; rewrite Hm in H;
      [ | exact (Hstop e H) ].
    destruct (IH _ _ _ H) as (lines & -> & Hle & Hall).
    exists (line :: lines). rewrite <- app_assoc. cbn [app List.length].
    split; [ reflexivity | split; [ lia | ] ].
    intros Hr. now rewrite (Hall Hr).
Qed.

Lemma run_adds_lines_witness :
  exists lines,
    snd (run packages ["earlier"]) = (["earlier"] ++ lines)%list
    /\ (List.length lines <= 4)%nat
    /\ (fst (run packages ["earlier"]) = Ok tt -> List.length lines = 4%nat).
Proof.
  apply (run_adds_lines packages ["earlier"]
           (fst (run packages ["earlier"])) (snd (run packages ["earlier"]))).
  now destruct (run packages ["earlier"]).
Defined.

(** X11: the loop goes through the packages in order and stops at the
    first that fails: a run over two lists in a row is the run over the
    first and, when that ends without an error, the run over the second
    from the output it left. *)
Theorem run_app :
  forall ps qs out,
    run (ps ++ qs) out
    = match run ps out with
      | (Ok _, out1) => run qs out1
      | (Raise e, out1) => (Raise e, out1)
      end.
Proof.
  induction ps as [ | [code data] ps IH]; intros qs out; cbn [run app].
  - reflexivity.
  - destruct (read_package code data) as [self | e]; [ | reflexivity ].
    destruct (main self out) as [[[] | e] out1]; [ apply IH | reflexivity ].
Qed.

(** ** The message *)

Lemma py_format_3f_returns (v : value) :
  returns (py_format_3f v) = returns (to_float v).
Proof.
  destruct v as [z | f | t]; cbn [py_format_3f to_float]; try reflexivity.
  destruct (PyFloat.of_int z); reflexivity.
Qed.

(** X12: a message is rendered exactly when its four numbers are ints or
    floats in the range of a float; a str in the place of the duration
    makes [get_message] raise [ValueError], an int out of the range
    [OverflowError]. *)
Theorem get_message_needs_numbers :
  forall info,
    returns (InfoMessage.get_message info)
    = (returns (to_float (InfoMessage.duration info))
       && returns (to_float (InfoMessage.distance info))
       && returns (to_float (InfoMessage.speed info))
       && returns (to_float (InfoMessage.calories info)))%bool
    /\ (forall t,
           InfoMessage.duration info = VStr t ->
           InfoMessage.get_message info
           = Raise (ValueError "Unknown format code 'f' for object of type 'str'"))
    /\ (forall z,
           InfoMessage.duration info = VInt z ->
           PyFloat.of_int z = Raise OverflowError ->
           InfoMessage.get_message info = Raise OverflowError).
Proof.
  intros info. unfold InfoMessage.get_message. split; [ | split ].
  - rewrite <- !py_format_3f_returns.
    destruct (py_format_3f (InfoMessage.duration info)); cbn [bind returns andb];
      [ | reflexivity ].
    destruct (py_format_3f (InfoMessage.distance info)); cbn [bind returns andb];
      [ | reflexivity ].
    destruct (py_format_3f (InfoMessage.speed info)); cbn [bind returns andb];
      [ | reflexivity ].
    destruct (py_format_3f (InfoMessage.calories info)); reflexivity.
  - intros t ->. reflexivity.
  - intros z -> Hz. cbn [py_format_3f]. now rewrite Hz.
Qed.

Lemma get_message_needs_numbers_witness :
  InfoMessage.get_message
    (InfoMessage.new "Running" (VStr "1") (VFloat 9.75) (VFloat 9.75) (VFloat 699.75))
  = Raise (ValueError "Unknown format code 'f' for object of type 'str'")
  /\ InfoMessage.get_message
       (InfoMessage.new "Running" (VInt (10 ^ 400)) (VFloat 9.75) (VFloat 9.75)
          (VFloat 699.75))
     = Raise OverflowError.
Proof.
  split.
  - apply (proj1 (proj2 (get_message_needs_numbers
             (InfoMessage.new "Running" (VStr "1") (VFloat 9.75) (VFloat 9.75)
                (VFloat 699.75)))) "1").
    reflexivity.
  - apply (proj2 (proj2 (get_message_needs_numbers
             (InfoMessage.new "Running" (VInt (10 ^ 400)) (VFloat 9.75)
                (VFloat 9.75) (VFloat 699.75)))) (10 ^ 400)).
    + reflexivity.
    + vm_compute. reflexivity.
Defined.

(** ** Reading a package *)

Lemma read_package_fields (code : string) (data : list value) (self : training) :
  read_package code data = Ok self ->
  fields self = data /\ code_of self = Some code.
Proof.
  intros H. unfold read_package in H.
  destruct (dict_get training_type code) as [cls | ] eqn:Hget; [ | discriminate H ].
  pose proof (dict_get_In _ _ _ Hget) as Hin.
  revert cls Hget H. pattern code. revert code Hin.
  apply workout_type_cases; intros cls Hget H; injection Hget as <-;
    do 6 (try destruct data as [ | ? data ]; try discriminate H);
    injection H as <-; split; reflexivity.
Qed.

(** X13: [read_package] stores the values of the list as they are, with
    no check of their types, in the order of the list, in an instance of
    the class of the code; and reading the attributes of an instance
    under the code of its class gives the instance back. *)
Theorem read_package_round_trip :
  (forall code data self,
      read_package code data = Ok self ->
      fields self = data /\ code_of self = Some code)
  /\ (forall self code,
         code_of self = Some code ->
         read_package code (fields self) = Ok self).
Proof.
  split; [ exact read_package_fields | ].
  intros self code H.
  destruct self; cbn [code_of] in H; try discriminate H;
    injection H as <-; reflexivity.
Qed.

Lemma read_package_round_trip_witness :
  fields cycling_D = [VInt 10000; VInt 1; VInt 75; VStr "trial"]
  /\ read_package "CYC" (fields cycling_D) = Ok cycling_D.
Proof.
  split.
  - apply (proj1 read_package_round_trip "CYC"
             [VInt 10000; VInt 1; VInt 75; VStr "trial"] cycling_D).
    reflexivity.
  - apply (proj2 read_package_round_trip cycling_D "CYC"). reflexivity.
Defined.



(** ** What a summary needs *)

Lemma py_truediv_needs_number_l (a b v : value) :
  py_truediv a b = Ok v -> is_number a = true.
Proof. destruct a; [ reflexivity | reflexivity | discriminate ]. Qed.

Lemma py_mul_number_factors (a b v : value) :
  py_mul a b = Ok v -> is_number v = true ->
  is_number a = true /\ is_number b = true.
Proof.
  destruct a, b; cbn [py_mul]; intros H Hv; try (split; reflexivity);
    try discriminate H; apply bind_Ok in H as (r & _ & H);
    injection H as <-; discriminate Hv.
Qed.

Lemma py_floordiv_needs_number_r (x : float) (b v : value) :
  py_floordiv (VFloat x) b = Ok v -> returns (to_float b) = true.
Proof.
  destruct b as [z | f | t]; cbn [py_floordiv to_float bind];
    [ | reflexivity | discriminate ].
  destruct (PyFloat.of_int z); [ reflexivity | discriminate ].
Qed.

Lemma weight_is_a_number (self : training) (c : value) :
  get_spent_calories self = Ok c -> returns (to_float (weight self)) = true.
Proof.
  intros H. destruct self as [a d w | a d w t | a d w | a d w h | a d w l k];
    cbn [get_spent_calories weight] in *.
  - discriminate H.
  - unfold Cycling_get_spent_calories in H.
    apply bind_Ok in H as (rate & Hrate & _). cbn [weight] in Hrate.
    destruct (py_eq_str t "trail");
      apply bind_Ok in Hrate as (v & Hv & Hrate);
      apply bind_Ok in Hrate as (m & Hm & Hrate);
      destruct (get_mean_speed_float _ _ Hv) as ((s & ->) & _);
      [ destruct (py_mul_float_r _ _ _ Hm) as (f & ->)
      | destruct (py_mul_float_l _ _ _ Hm) as (f & ->) ];
      exact (py_mul_needs_number_r _ _ _ Hrate).
  - unfold Running_get_spent_calories in H.
    apply bind_Ok in H as (v & Hv & H).
    apply bind_Ok in H as (m & Hm & H).
    apply bind_Ok in H as (n & Hn & H).
    apply bind_Ok in H as (rate & Hrate & _). cbn [weight] in Hrate.
    destruct (get_mean_speed_float _ _ Hv) as ((s & ->) & _).
    destruct (py_mul_float_r _ _ _ Hm) as (f & ->).
    destruct (py_sub_float_l _ _ _ Hn) as (g & ->).
    exact (py_mul_needs_number_r _ _ _ Hrate).
  - unfold SportsWalking_get_spent_calories in H.
    apply bind_Ok in H as (base & Hbase & _). cbn [weight] in Hbase.
    exact (py_mul_needs_number_r _ _ _ Hbase).
  - unfold Swimming_get_spent_calories in H.
    apply bind_Ok in H as (v & Hv & H).
    apply bind_Ok in H as (m & Hm & H).
    apply bind_Ok in H as (n & Hn & H). cbn [weight] in H.
    destruct (get_mean_speed_float _ _ Hv) as ((s & ->) & _).
    destruct (py_add_float_l _ _ _ Hm) as (f & ->).
    destruct (py_mul_float_l _ _ _ Hn) as (g & ->).
    exact (py_mul_needs_number_r _ _ _ H).
Qed.

(** X15: there is no summary of a reading whose action, duration or
    weight is a str, or an int out of the range of a float; nor of a
    SportsWalking reading with such a height, nor of a Swimming reading
    with a str for the length of the pool or the number of laps. *)
Theorem summary_needs_numbers :
  forall self info,
    show_training_info self = Ok info ->
    returns (to_float (action self)) = true
    /\ returns (to_float (duration self)) = true
    /\ returns (to_float (weight self)) = true
    /\ (forall a d w h,
           self = SportsWalking a d w h -> returns (to_float h) = true)
    /\ (forall a d w l c,
           self = Swimming a d w l c ->
           is_number l = true /\ is_number c = true).
Proof.
  intros self info H.
  destruct (summary_fields self info H) as (fd & dist & s & c & Hd & Hdist & Hs & Hc & _).
  split; [ | split; [ | split; [ | split ] ] ].
  - rewrite get_distance_inherited in Hdist. unfold Training_get_distance in Hdist.
    apply bind_Ok in Hdist as (steps & Hsteps & _).
    assert (Hstep : LEN_STEP self = VFloat (step_length self))
      by (destruct self; reflexivity).
    rewrite Hstep in Hsteps. exact (py_mul_needs_number_l _ _ _ Hsteps).
  - now rewrite Hd.
  - exact (weight_is_a_number self _ Hc).
  - intros a d w h ->. cbn [get_spent_calories] in Hc.
    unfold SportsWalking_get_spent_calories in Hc.
    apply bind_Ok in Hc as (base & _ & Hc).
    apply bind_Ok in Hc as (v & Hv & Hc).
    apply bind_Ok in Hc as (sq & Hsq & Hc).
    apply bind_Ok in Hc as (ratio & Hratio & _).
    rewrite Hs in Hv. injection Hv as <-.
    cbn [py_pow2] in Hsq. apply bind_Ok in Hsq as (p & _ & Hsq).
    injection Hsq as <-.
    exact (py_floordiv_needs_number_r _ _ _ Hratio).
  - intros a d w l k ->. cbn [get_mean_speed] in Hs.
    unfold Swimming_get_mean_speed in Hs.
    apply bind_Ok in Hs as (pool & Hpool & Hs).
    apply bind_Ok in Hs as (km & Hkm & _).
    exact (py_mul_number_factors _ _ _ Hpool (py_truediv_needs_number_l _ _ _ Hkm)).
Qed.

Lemma summary_needs_numbers_witness :
  returns (to_float (action walking_C)) = true
  /\ returns (to_float (duration walking_C)) = true
  /\ returns (to_float (weight walking_C)) = true
  /\ (forall a d w h,
         walking_C = SportsWalking a d w h -> returns (to_float h) = true)
  /\ (forall a d w l c,
         walking_C = Swimming a d w l c ->
         is_number l = true /\ is_number c = true).
Proof.
  apply (summary_needs_numbers walking_C
           (InfoMessage.new "SportsWalking" (VInt 1) (VFloat 5.85)
              (VFloat 5.85) (VFloat 157.50000000000003))).
  vm_compute. reflexivity.
Defined.

Lemma calories_need_speed (self : training) :
  returns (get_spent_calories self) = true ->
  returns (get_mean_speed self) = true.
Proof.
  destruct (get_mean_speed self) as [s | e] eqn:Hs; [ reflexivity | ].
  destruct self as [a d w | a d w t | a d w | a d w h | a d w l k];
    cbn [get_spent_calories];
    unfold Training_get_spent_calories, Cycling_get_spent_calories,
      Running_get_spent_calories, SportsWalking_get_spent_calories,
      Swimming_get_spent_calories; rewrite ?Hs; cbn [bind returns];
    try (intros H; exact H).
  - destruct (py_eq_str t "trail"); intros H; exact H.
  - destruct (py_mul COEFF_CALORIES_1 _); cbn [bind returns]; intros H; exact H.
Qed.

Lemma inherited_speed_needs_distance (self : training) :
  is_Swimming self = false ->
  returns (get_mean_speed self) = true ->
  returns (get_distance self) = true.
Proof.
  intros Hcls.
  assert (E : get_mean_speed self = Training_get_mean_speed self)
    by (destruct self; try discriminate Hcls; reflexivity).
  rewrite E. unfold Training_get_mean_speed.
  destruct (get_distance self); [ reflexivity | intros H; exact H ].
Qed.

(** X16: for the classes on foot or bike there is a summary exactly when
    the calories can be computed; for swimming, whose speed and calories
    do not read the action, exactly when the distance and the calories
    can: a reading with a str action has calories and no summary. *)
Theorem summary_follows_calories :
  (forall self,
      is_Swimming self = false ->
      returns (show_training_info self) = returns (get_spent_calories self))
  /\ (forall self,
         is_Swimming self = true ->
         returns (show_training_info self)
         = (returns (get_distance self) && returns (get_spent_calories self))%bool)
  /\ (exists self,
         returns (get_spent_calories self) = true
         /\ returns (show_training_info self) = false).
Proof.
  assert (Hshow : forall self,
             returns (show_training_info self)
             = (returns (get_distance self) && returns (get_mean_speed self)
                && returns (get_spent_calories self))%bool).
  { intros self. unfold show_training_info.
    destruct (get_distance self); [ | reflexivity ].
    destruct (get_mean_speed self); [ | reflexivity ].
    destruct (get_spent_calories self); reflexivity. }
  split; [ | split ].
  - intros self Hcls. rewrite Hshow.
    destruct (returns (get_spent_calories self)) eqn:Hc;
      [ | now rewrite andb_false_r ].
    pose proof (calories_need_speed self Hc) as Hs.
    now rewrite Hs, (inherited_speed_needs_distance self Hcls Hs).
  - intros self _. rewrite Hshow.
    destruct (returns (get_spent_calories self)) eqn:Hc;
      [ | now rewrite !andb_false_r ].
    now rewrite (calories_need_speed self Hc), !andb_true_r.
  - exists (Swimming (VStr "many") (VInt 1) (VInt 80) (VInt 25) (VInt 40)).
    split; reflexivity.
Qed.

Lemma summary_follows_calories_witness :
  returns (show_training_info running_B) = returns (get_spent_calories running_B)
  /\ returns (show_training_info swimming_A)
     = (returns (get_distance swimming_A)
        && returns (get_spent_calories swimming_A))%bool.
Proof.
  split.
  - apply (proj1 summary_follows_calories running_B). reflexivity.
  - apply (proj1 (proj2 summary_follows_calories) swimming_A). reflexivity.
Defined.
